(** * Stock ledger of the warehouse tracker

    A shallow embedding of the document routes of
    [src/backend/routes/index.js] (receipts and deliveries: create, update,
    validate, delete, list) and of the line composition of
    [src/frontend/src/pages/Deliveries.jsx] ([handleAddItem] and the
    "Total Items" figures), with the properties the specification states
    about them.

    Conventions of the embedding.
    - The PostgreSQL tables are lists of rows: [INSERT] appends, [UPDATE]
      maps over the rows, [DELETE] filters, [SELECT ... WHERE] filters.
    - Stock and line quantities in the database are exact numbers (the
      specification's "real number"; the form steps by 0.01): they are
      rationals [Q], compared with [==].
    - A number of the JavaScript code is a double (IEEE 754 binary64,
      [spec_float] with the operations of the standard library's
      [SpecFloat]).  A number that the code reads, with [parseFloat] or
      from JSON, is given as the rational it is written as, and its value
      is the double nearest to it, [to_double]; what the code computes
      with [+], [-] and the comparisons is computed on doubles.
    - Dates are carried as text; the [split('T')[0]] that shortens the date
      of an answer is not modelled.
    - A route runs inside [BEGIN] ... [COMMIT]; a route that answers after
      [ROLLBACK] returns the database it was given.
    - Every handler is a function [db -> db * response]. *)

From Stdlib Require Import List String Ascii Bool Arith ZArith QArith Lqa Lia.
From Stdlib Require Import DecimalString DecimalNat.
From Stdlib Require Import SpecFloat Permutation.
Import ListNotations.

Local Open Scope string_scope.
Local Open Scope Q_scope.

(** ** Tables *)

(** A row of [products]; the document routes read [id] and write [stock],
    the form reads [name], [uom] and [stock]. *)
Record product := mkProduct {
  p_id : Z;
  p_name : string;
  p_uom : string;
  p_stock : Q
}.

(** A row of [receipts] or of [deliveries]: [d_code] is the column
    [receipt_id] / [delivery_id], [d_party] is [supplier] / [customer];
    [d_status] is [None] when the column holds NULL. *)
Record document := mkDocument {
  d_id : Z;
  d_code : string;
  d_party : string;
  d_date : string;
  d_status : option string;
  d_warehouse_id : option Z;
  d_location_id : option Z
}.

(** A row of [receipt_items] or of [delivery_items]; [doc_id] is the column
    [receipt_id] / [delivery_id]. *)
Record item_row := mkItemRow {
  doc_id : Z;
  product_id : Z;
  row_quantity : Q
}.

(** An element of the [items] array of a request body, and of the form's
    [formData.items]. *)
Record item := mkItem {
  productId : Z;
  quantity : Q
}.

(** Modelled from the spec: the schema (the [CREATE TABLE] statements
    behind [../db/index.js]) is outside the two files embedded here.  The
    internal [id] of a document is "numeric, internal": each documents
    table draws it from its own sequence, held in [receipts_seq] and
    [deliveries_seq].  Of the constraints that the schema may declare only
    the cascade on the deletion of a document is modelled
    ([on_delete_cascade]); a unique code or a foreign key to the products
    is not, and every INSERT is taken to succeed. *)
Record db := mkDb {
  products : list product;
  receipts : list document;
  receipt_items : list item_row;
  deliveries : list document;
  delivery_items : list item_row;
  receipts_seq : Z;
  deliveries_seq : Z
}.

(** The two document types; the routes of one are the routes of the other
    with the table names exchanged, except that only receipts have a
    [validate] route. *)
Inductive kind := Receipts | Deliveries.

Definition documents (k : kind) (d : db) : list document :=
  match k with Receipts => receipts d | Deliveries => deliveries d end.

Definition lines (k : kind) (d : db) : list item_row :=
  match k with Receipts => receipt_items d | Deliveries => delivery_items d end.

Definition next_id (k : kind) (d : db) : Z :=
  match k with Receipts => receipts_seq d | Deliveries => deliveries_seq d end.

Definition set_documents (k : kind) (rows : list document) (d : db) : db :=
  match k with
  | Receipts =>
      mkDb (products d) rows (receipt_items d) (deliveries d)
           (delivery_items d) (receipts_seq d) (deliveries_seq d)
  | Deliveries =>
      mkDb (products d) (receipts d) (receipt_items d) rows
           (delivery_items d) (receipts_seq d) (deliveries_seq d)
  end.

Definition set_lines (k : kind) (rows : list item_row) (d : db) : db :=
  match k with
  | Receipts =>
      mkDb (products d) (receipts d) rows (deliveries d)
           (delivery_items d) (receipts_seq d) (deliveries_seq d)
  | Deliveries =>
      mkDb (products d) (receipts d) (receipt_items d) (deliveries d)
           rows (receipts_seq d) (deliveries_seq d)
  end.

Definition set_next_id (k : kind) (n : Z) (d : db) : db :=
  match k with
  | Receipts =>
      mkDb (products d) (receipts d) (receipt_items d) (deliveries d)
           (delivery_items d) n (deliveries_seq d)
  | Deliveries =>
      mkDb (products d) (receipts d) (receipt_items d) (deliveries d)
           (delivery_items d) (receipts_seq d) n
  end.

Definition set_products (ps : list product) (d : db) : db :=
  mkDb ps (receipts d) (receipt_items d) (deliveries d)
       (delivery_items d) (receipts_seq d) (deliveries_seq d).

(** ** JavaScript numbers *)

Definition number : Type := spec_float.

Definition integer (z : Z) : number :=
  match z with
  | Z0 => S754_zero false
  | Zpos n => S754_finite false n 0
  | Zneg n => S754_finite true n 0
  end.

(** The double that a written number denotes: the numerator divided by the
    denominator, rounded to the nearest double, ties to even; beyond the
    range of the doubles it is an infinity. *)
Definition to_double (q : Q) : number :=
  SFdiv 53 1024 (integer (Qnum q)) (S754_finite false (Qden q) 0).

Definition js_zero : number := S754_zero false.

(** [a + b], [a - b], [a < b] and [a <= b] on numbers. *)
Definition js_add (a b : number) : number := SFadd 53 1024 a b.
Definition js_sub (a b : number) : number := SFsub 53 1024 a b.
Definition js_lt (a b : number) : bool := SFltb a b.
Definition js_le (a b : number) : bool := SFleb a b.

(** ** Requests and responses *)

(** The JSON body of [POST] and [PUT]: [supplier] or [customer], [date],
    [status], [items], [warehouse_id], [location_id]. *)
Record body := mkBody {
  b_party : string;
  b_date : string;
  b_status : option string;
  b_items : option (list item);
  b_warehouse_id : option Z;
  b_location_id : option Z
}.

(** One row of the list a [GET] answers with. *)
Record summary := mkSummary {
  s_doc : document;
  s_items : list item;
  s_totalItems : Q
}.

Inductive payload :=
| Error (error : string)
| Message (message : string) (status : option string)
| Document (row : document) (items : list item) (totalItems : number)
| Documents (rows : list summary).

(** [Reply code json] is [res.status(code).json(json)]; [Next] is a request
    that no route of this router matches. *)
Inductive response :=
| Reply (code : Z) (json : payload)
| Next.

(** ** Identifier generation *)

(** [String(n)] for a count. *)
Definition String_of (n : nat) : string :=
  NilEmpty.string_of_uint (Nat.to_uint n).

(** [n] characters of [fill] repeated, [cur] being what is left of the
    current copy. *)
Fixpoint cycle (n : nat) (fill cur : string) : string :=
  match n with
  | O => EmptyString
  | S m =>
      match cur with
      | String c r => String c (cycle m fill r)
      | EmptyString =>
          match fill with
          | String c r => String c (cycle m fill r)
          | EmptyString => EmptyString
          end
      end
  end.

(** [s.padStart(targetLength, padString)]. *)
Definition padStart (targetLength : nat) (padString s : string) : string :=
  if (targetLength <=? String.length s)%nat then s
  else cycle (targetLength - String.length s) padString padString ++ s.

Definition prefix (k : kind) : string :=
  match k with Receipts => "RCP-" | Deliveries => "DEL-" end.

(** [`RCP-${String(receiptNumber).padStart(3, '0')}`] with
    [receiptNumber = parseInt(count) + 1]. *)
Definition document_code (k : kind) (count : nat) : string :=
  let number := (count + 1)%nat in
  prefix k ++ padStart 3 "0" (String_of number).

(** ** The document routes *)

(** [s || dflt] on an optional string: [undefined] and [''] are falsy. *)
Definition or_default (s : option string) (dflt : string) : string :=
  match s with
  | None => dflt
  | Some EmptyString => dflt
  | Some v => v
  end.

Definition noun (k : kind) : string :=
  match k with Receipts => "Receipt" | Deliveries => "Delivery" end.

(** [INSERT INTO <k>_items (<k>_id, product_id, quantity) VALUES (id, ...)]
    for each element of [items], with the running [totalItems], a sum of
    doubles that starts at 0. *)
Definition insert_items (k : kind) (id : Z) (items : list item)
    (d : db) : db * number :=
  fold_left
    (fun (acc : db * number) (it : item) =>
       let (d0, totalItems) := acc in
       (set_lines k (lines k d0 ++ [mkItemRow id (productId it) (quantity it)]) d0,
        js_add totalItems (to_double (quantity it))))
    items (d, js_zero).

(** [items || []]. *)
Definition items_or_empty (items : option (list item)) : list item :=
  match items with Some l => l | None => [] end.

(** [POST /receipts] and [POST /deliveries]. *)
Definition post_documents (k : kind) (b : body) (d : db) : db * response :=
  let count := List.length (documents k d) in
  let code := document_code k count in
  let row :=
    mkDocument (next_id k d) code (b_party b) (b_date b)
               (Some (or_default (b_status b) "draft"))
               (b_warehouse_id b) (b_location_id b) in
  let d1 := set_next_id k (next_id k d + 1)%Z
              (set_documents k (documents k d ++ [row]) d) in
  let (d2, totalItems) := insert_items k (d_id row) (items_or_empty (b_items b)) d1 in
  (d2, Reply 201 (Document row (items_or_empty (b_items b)) totalItems)).

(** [UPDATE <k> SET supplier = $1, date = $2, status = $3 WHERE id = $4]
    on one row. *)
Definition update_header (id : Z) (b : body) (r : document) : document :=
  if (d_id r =? id)%Z
  then mkDocument (d_id r) (d_code r) (b_party b) (b_date b) (b_status b)
                  (d_warehouse_id r) (d_location_id r)
  else r.

(** [PUT /receipts/:id] and [PUT /deliveries/:id]. *)
Definition put_documents (k : kind) (id : Z) (b : body) (d : db) : db * response :=
  match filter (fun r => (d_id r =? id)%Z) (map (update_header id b) (documents k d)) with
  | [] => (d, Reply 404 (Error (noun k ++ " not found")))
  | row :: _ =>
      let d1 := set_documents k (map (update_header id b) (documents k d)) d in
      let d2 := set_lines k (filter (fun i => negb (doc_id i =? id)%Z) (lines k d1)) d1 in
      let (d3, totalItems) := insert_items k id (items_or_empty (b_items b)) d2 in
      (d3, Reply 200 (Document row (items_or_empty (b_items b)) totalItems))
  end.

(** [UPDATE products SET stock = stock + $1 WHERE id = $2], on one row and
    on the table. *)
Definition credit (q : Q) (pid : Z) (p : product) : product :=
  if (p_id p =? pid)%Z
  then mkProduct (p_id p) (p_name p) (p_uom p) (p_stock p + q)
  else p.

Definition add_stock (q : Q) (pid : Z) (ps : list product) : list product :=
  map (credit q pid) ps.

(** [receipt.status === 'done']. *)
Definition is_done (r : document) : bool :=
  match d_status r with
  | Some s => String.eqb s "done"
  | None => false
  end.

(** [UPDATE receipts SET status = 'done' WHERE id = $2] on one row. *)
Definition mark_done (id : Z) (r : document) : document :=
  if (d_id r =? id)%Z
  then mkDocument (d_id r) (d_code r) (d_party r) (d_date r) (Some "done")
                  (d_warehouse_id r) (d_location_id r)
  else r.

(** [POST /receipts/:id/validate]. *)
Definition validate_receipt (id : Z) (d : db) : db * response :=
  match filter (fun r => (d_id r =? id)%Z) (receipts d) with
  | [] => (d, Reply 404 (Error "Receipt not found"))
  | receipt :: _ =>
      if is_done receipt
      then (d, Reply 400 (Error "Receipt already validated"))
      else
        let rows := filter (fun i => (doc_id i =? id)%Z) (receipt_items d) in
        let ps :=
          fold_left (fun ps i => add_stock (row_quantity i) (product_id i) ps)
                    rows (products d) in
        let d1 := set_products ps d in
        let d2 := set_documents Receipts (map (mark_done id) (receipts d1)) d1 in
        (d2, Reply 200 (Message "Receipt validated successfully" (Some "done")))
  end.

(** Modelled from the spec: the schema is outside the two files embedded
    here; the items tables reference their document with a foreign key that
    cascades on delete ("deleting it removes the document and its lines"),
    so the [DELETE] on the documents table takes the document's lines with
    it. *)
Definition on_delete_cascade (id : Z) (rows : list item_row) : list item_row :=
  filter (fun i => negb (doc_id i =? id)%Z) rows.

(** [DELETE /receipts/:id] and [DELETE /deliveries/:id]. *)
Definition delete_documents (k : kind) (id : Z) (d : db) : db * response :=
  match filter (fun r => (d_id r =? id)%Z) (documents k d) with
  | [] => (d, Reply 404 (Error (noun k ++ " not found")))
  | _ :: _ =>
      let d1 := set_documents k
                  (filter (fun r => negb (d_id r =? id)%Z) (documents k d)) d in
      let d2 := set_lines k (on_delete_cascade id (lines k d1)) d1 in
      (d2, Reply 200 (Message (noun k ++ " deleted successfully") None))
  end.

(** [COALESCE((SELECT SUM(quantity) FROM <k>_items WHERE <k>_id = id), 0)]. *)
Definition sum_quantity (id : Z) (rows : list item_row) : Q :=
  fold_left Qplus
    (map row_quantity (filter (fun i => (doc_id i =? id)%Z) rows)) 0.

(** [parseFloat(totalItems) || 0]: a zero total is falsy and gives [0]. *)
Definition number_or_zero (t : Q) : Q :=
  if Qeq_bool t 0 then 0 else t.

(** [GET /receipts] and [GET /deliveries].  The rows are given in the
    order of the table.  The route orders them by [date] and [created_at]
    ([ORDER BY date DESC, created_at DESC]), two columns whose types and
    values are set by the schema, so its answer is a permutation of this
    list: what is stated of a list answer is stated up to the order of its
    rows. *)
Definition get_documents (k : kind) (d : db) : db * response :=
  (d, Reply 200 (Documents
        (map (fun r =>
                mkSummary r
                  (map (fun i => mkItem (product_id i) (row_quantity i))
                       (filter (fun i => (doc_id i =? d_id r)%Z) (lines k d)))
                  (number_or_zero (sum_quantity (d_id r) (lines k d))))
             (documents k d)))).

(** ** The router *)

Inductive method := GET | POST | PUT | DELETE.

(** A path is its segments.  A segment in the place of [:id] is compared by
    the query with the numeric [id] column: [Num n] is a numeral, any other
    text [Lit s] makes the query throw, and the route answers 500 after
    [ROLLBACK]. *)
Inductive segment := Lit (s : string) | Num (n : Z).

Record request := mkRequest {
  req_method : method;
  req_path : list segment;
  req_body : body
}.

(** The [catch] of a route: [res.status(500).json({ error })]. *)
Definition failed (what : string) (d : db) : db * response :=
  (d, Reply 500 (Error what)).

Definition with_id (s : segment) (handler : Z -> db -> db * response)
    (what : string) (d : db) : db * response :=
  match s with
  | Num id => handler id d
  | Lit _ => failed what d
  end.

(** The router is made with [express.Router()], without [caseSensitive]:
    a segment matches the segment of a route whatever the case of its
    ASCII letters. *)
Definition lower_letter (c : ascii) : ascii :=
  let n := nat_of_ascii c in
  if (65 <=? n)%nat && (n <=? 90)%nat then ascii_of_nat (n + 32) else c.

Fixpoint lower_segment (s : string) : string :=
  match s with
  | EmptyString => EmptyString
  | String c rest => String (lower_letter c) (lower_segment rest)
  end.

Definition same_segment (s route : string) : bool :=
  String.eqb (lower_segment s) route.

Definition resource (s : string) : option kind :=
  if same_segment s "receipts" then Some Receipts
  else if same_segment s "deliveries" then Some Deliveries
  else None.

Definition lower_noun (k : kind) : string :=
  match k with Receipts => "receipt" | Deliveries => "delivery" end.

(** The receipts and deliveries routes of the router, in the order of the
    file.  The routes before them ([/health], [/data], [/products] and the
    mounted routers [auth.js] and [db-check.js], which are outside the two
    files embedded here and are taken to serve no path under [/receipts]
    or [/deliveries]) are not document routes and are left out; a request for
    them is [Next] here, as is every request that no document route
    matches. *)
Definition router (r : request) (d : db) : db * response :=
  match req_path r with
  | [Lit name] =>
      match resource name, req_method r with
      | Some k, GET => get_documents k d
      | Some k, POST => post_documents k (req_body r) d
      | _, _ => (d, Next)
      end
  | [Lit name; id] =>
      match resource name, req_method r with
      | Some k, PUT =>
          with_id id (fun n => put_documents k n (req_body r))
                  ("Failed to update " ++ lower_noun k) d
      | Some k, DELETE =>
          with_id id (delete_documents k)
                  ("Failed to delete " ++ lower_noun k) d
      | _, _ => (d, Next)
      end
  | [Lit name; id; Lit action] =>
      match resource name, req_method r with
      | Some Receipts, POST =>
          if same_segment action "validate"
          then with_id id validate_receipt "Failed to validate receipt" d
          else (d, Next)
      | _, _ => (d, Next)
      end
  | _ => (d, Next)
  end.

(** The database after a sequence of requests, and the databases passed
    through on the way (one per request). *)
Definition run (reqs : list request) (d : db) : db :=
  fold_left (fun d0 r => fst (router r d0)) reqs d.

Fixpoint trace (reqs : list request) (d : db) : list (db * response) :=
  match reqs with
  | [] => []
  | r :: rest => router r d :: trace rest (fst (router r d))
  end.

(** A request to validate document [id] of type [k]:
    [POST /<k>/:id/validate]. *)
Definition no_body : body := mkBody "" "" None None None None.

Definition validation (k : kind) (id : Z) : request :=
  mkRequest POST
    [Lit (match k with Receipts => "receipts" | Deliveries => "deliveries" end);
     Num id; Lit "validate"]
    no_body.

(** ** Line composition in the delivery form *)

(** [itemForm]: the value of the product select, [''] ([None]) or the id
    of a product as [parseInt] reads it, and the value of the number input
    (which holds [''] or a floating-point numeral), [None] when it is ['']
    or not a number, and otherwise the rational it writes, which
    [parseFloat] reads as the double [to_double] of it. *)
Record item_form := mkItemForm {
  form_productId : option Z;
  form_quantity : option Q
}.

(** [errors.item]: unset or [''], the "valid quantity" message, or the
    "Insufficient stock. Available: <n> <uom>" message. *)
Inductive item_error :=
| NoItemError
| InvalidItem
| InsufficientStock (available : number) (uom : string).

Record form := mkForm {
  formData_items : list item;
  itemForm : item_form;
  errors_item : item_error
}.

(** [products.find((p) => p.id === id)]. *)
Definition find_product (products : list product) (id : Z) : option product :=
  find (fun p => (p_id p =? id)%Z) products.

(** [formData.items.filter(productId === id).reduce((sum, item) => sum +
    item.quantity, 0)], a sum of doubles from the left. *)
Definition existingQuantity (items : list item) (id : Z) : number :=
  fold_left (fun sum it => js_add sum (to_double (quantity it)))
            (filter (fun it => (productId it =? id)%Z) items) js_zero.

(** What [handleAddItem] does apart from the new state. *)
Inductive add_outcome :=
| Rejected
| Appended (line : item).

Definition handleAddItem (products : list product) (f : form) : form * add_outcome :=
  match form_productId (itemForm f), form_quantity (itemForm f) with
  | Some pid, Some q =>
      let requestedQuantity := to_double q in
      if js_le requestedQuantity js_zero
      then (mkForm (formData_items f) (itemForm f) InvalidItem, Rejected)
      else
        match find_product products pid with
        | None => (f, Rejected)
        | Some product =>
            let existing := existingQuantity (formData_items f) pid in
            let totalRequested := js_add existing requestedQuantity in
            if js_lt (to_double (p_stock product)) totalRequested
            then (mkForm (formData_items f) (itemForm f)
                         (InsufficientStock (js_sub (to_double (p_stock product)) existing)
                                            (p_uom product)),
                  Rejected)
            else (mkForm (formData_items f ++ [mkItem pid q])
                         (mkItemForm None None) NoItemError,
                  Appended (mkItem pid q))
        end
  | _, _ => (mkForm (formData_items f) (itemForm f) InvalidItem, Rejected)
  end.

(** The "Total Items" line under the added items of the form:
    [formData.items.length]. *)
Definition modal_total_items (f : form) : nat :=
  List.length (formData_items f).

(** The "Total Items" column of the deliveries table: [delivery.totalItems]
    of the row the list route answered. *)
Definition table_total_items (s : summary) : Q := s_totalItems s.

(** The specification's [totalQuantity()]: the sum of all line
    quantities. *)
Definition totalQuantity (items : list item) : Q :=
  fold_right (fun it acc => quantity it + acc) 0 items.

(** ** Reading the tables *)

(** The row a route takes as [rows[0]] of [SELECT ... WHERE id = $1]. *)
Definition lookup (k : kind) (id : Z) (d : db) : option document :=
  find (fun r => (d_id r =? id)%Z) (documents k d).

(** The lines of document [id]. *)
Definition lines_of (k : kind) (id : Z) (d : db) : list item_row :=
  filter (fun i => (doc_id i =? id)%Z) (lines k d).

(** The sum of the quantities that the lines [rows] give for product
    [pid]. *)
Definition line_quantity (pid : Z) (rows : list item_row) : Q :=
  fold_right
    (fun i acc => if (product_id i =? pid)%Z then row_quantity i + acc else acc)
    0 rows.

Definition row_of (id : Z) (it : item) : item_row :=
  mkItemRow id (productId it) (quantity it).

(** Product by product, [ps'] is [ps] with the quantities of [rows] added:
    the same products in the same order, each stock raised by the sum of the
    lines that name it. *)
Definition credited (rows : list item_row) (ps ps' : list product) : Prop :=
  Forall2
    (fun p p' =>
       p_id p' = p_id p /\ p_name p' = p_name p /\ p_uom p' = p_uom p /\
       p_stock p' == p_stock p + line_quantity (p_id p) rows)
    ps ps'.

Definition nonneg_stock (d : db) : Prop :=
  Forall (fun p => 0 <= p_stock p) (products d).

Definition nonneg_lines (rows : list item_row) : Prop :=
  Forall (fun i => 0 <= row_quantity i) rows.

(** ** Sample ledgers *)

(** One product with stock 10 and no document yet. *)
Definition widget : product := mkProduct 1 "Widget" "pcs" 10.

Definition store_P10 : db := mkDb [widget] [] [] [] [] 1 1.

Definition order (party : string) (status : option string) (items : list item) : body :=
  mkBody party "2024-05-01" status (Some items) None None.

Definition create (k : kind) (b : body) : request :=
  mkRequest POST
    [Lit (match k with Receipts => "receipts" | Deliveries => "deliveries" end)] b.

Definition update (k : kind) (id : Z) (b : body) : request :=
  mkRequest PUT
    [Lit (match k with Receipts => "receipts" | Deliveries => "deliveries" end); Num id] b.

Definition remove (k : kind) (id : Z) : request :=
  mkRequest DELETE
    [Lit (match k with Receipts => "receipts" | Deliveries => "deliveries" end); Num id]
    no_body.

(** ** The specification's delivery validation and non-negativity *)

(** The specification's words for the validation of a delivery: every line
    subtracts its quantity from the product it names. *)
Definition spec_subtract_lines (rows : list item_row) (ps : list product) : list product :=
  fold_left (fun ps i => add_stock (- row_quantity i) (product_id i) ps) rows ps.

(** The product whose stock the subtraction would drive below zero, if
    any. *)
Definition spec_offending_product (rows : list item_row) (ps : list product) : option product :=
  find (fun p => negb (Qle_bool 0 (p_stock p))) (spec_subtract_lines rows ps).

(** What the specification says a validation request for delivery [id]
    does on [d]: with an offending product it fails and changes neither
    stock nor status; without one it subtracts every line and sets the
    status to [done]. *)
Definition spec_delivery_validation (d : db) (id : Z) : Prop :=
  let rows := lines_of Deliveries id d in
  let d' := fst (router (validation Deliveries id) d) in
  match spec_offending_product rows (products d) with
  | Some _ =>
      (exists code msg, snd (router (validation Deliveries id) d) = Reply code (Error msg)) /\
      products d' = products d /\ deliveries d' = deliveries d
  | None =>
      products d' = spec_subtract_lines rows (products d) /\
      option_map d_status (lookup Deliveries id d') = Some (Some "done")
  end.

(** A sequence of validation requests, each for a document of either
    type. *)
Definition validations (vs : list (kind * Z)) : list request :=
  map (fun v => validation (fst v) (snd v)) vs.

(** What the specification says of such a sequence: from non-negative
    stocks, the stocks after each validation are non-negative. *)
Definition spec_non_negativity (d : db) (vs : list (kind * Z)) : Prop :=
  nonneg_stock d ->
  Forall (fun s => nonneg_stock (fst s)) (trace (validations vs) d).

(** The answers the validation of a receipt has. *)
Definition validation_reply (r : response) : Prop :=
  r = Reply 200 (Message "Receipt validated successfully" (Some "done")) \/
  r = Reply 400 (Error "Receipt already validated") \/
  r = Reply 404 (Error "Receipt not found") \/
  r = Next.

(** [store_P10] after a draft delivery of 4 widgets. *)
Definition store_delivery_4 : db :=
  run [create Deliveries (order "Bolt Ltd" None [mkItem 1 4])] store_P10.

(** [store_P10] after a draft receipt whose one line has quantity -15. *)
Definition store_receipt_minus_15 : db :=
  run [create Receipts (order "Acme" None [mkItem 1 (-15)])] store_P10.

(** [store_P10] after a draft receipt of two lines for the widget, 4 and 3. *)
Definition store_receipt_4_3 : db :=
  run [create Receipts (order "Acme" None [mkItem 1 4; mkItem 1 3])] store_P10.

(** ** The specification's identifier and totals *)

Fixpoint zeros (n : nat) : string :=
  match n with
  | O => EmptyString
  | S m => String "0" (zeros m)
  end.

(** The specification's zero-pad: the decimal digits of [n] with zeros in
    front of them up to [width] characters. *)
Definition spec_zero_pad (width n : nat) : string :=
  zeros (width - String.length (String_of n)) ++ String_of n.

(** The specification's code of the next document of type [k] when [count]
    exist. *)
Definition spec_code (k : kind) (count : nat) : string :=
  prefix k ++ spec_zero_pad 3 (count + 1).

(** The number that a string of decimal digits writes. *)
Definition decimal_value (s : string) : option nat :=
  option_map Nat.of_uint (NilEmpty.uint_of_string s).

Definition empty_store : db := mkDb [] [] [] [] [] 1 1.

(** Two lines for the same product, of 2 and of 3. *)
Definition two_and_three : list item := [mkItem 1 2; mkItem 1 3].

Definition form_two_and_three : form :=
  mkForm two_and_three (mkItemForm None None) NoItemError.

Definition store_delivery_2_3 : db :=
  run [create Deliveries (order "Bolt Ltd" None two_and_three)] store_P10.

(** The rows of a list answer. *)
Definition listed (r : db * response) : list summary :=
  match snd r with
  | Reply _ (Documents rows) => rows
  | _ => []
  end.

(** ** Sample forms and edits *)

Definition gadget : product := mkProduct 2 "Gadget" "box" 5.

(** A form that already holds 4 widgets and asks for [q] more of product
    [pid]. *)
Definition form_asking (pid : option Z) (q : option Q) : form :=
  mkForm [mkItem 1 4] (mkItemForm pid q) NoItemError.

(** A store with two products and a draft delivery of 5 widgets and 2
    gadgets. *)
Definition store_delivery_5_2 : db :=
  run [create Deliveries (order "Bolt Ltd" None [mkItem 1 5; mkItem 2 2])]
      (mkDb [widget; gadget] [] [] [] [] 1 1).

(** [store_receipt_4_3] with its receipt validated. *)
Definition store_receipt_validated : db :=
  run [validation Receipts 1] store_receipt_4_3.

(** ** Reading requests and tables, continued *)

Definition resource_name (k : kind) : string :=
  match k with Receipts => "receipts" | Deliveries => "deliveries" end.


(** The other document type. *)
Definition other (k : kind) : kind :=
  match k with Receipts => Deliveries | Deliveries => Receipts end.

(** The internal id and the code of a row. *)
Definition id_code (r : document) : Z * string := (d_id r, d_code r).

(** The codes of the table of type [k] are those of a table filled by
    creations alone: the [n]-th row carries the code made from the count
    [n - 1]. *)
Definition sequential_codes (k : kind) (d : db) : Prop :=
  map d_code (documents k d)
  = map (document_code k) (seq 0 (List.length (documents k d))).

(** Every line of type [k] belongs to a document of the table. *)
Definition lines_have_documents (k : kind) (d : db) : Prop :=
  forall i, In i (lines k d) -> exists r, In r (documents k d) /\ d_id r = doc_id i.

(** The answer of the receipt validation that succeeded. *)
Definition validated : response :=
  Reply 200 (Message "Receipt validated successfully" (Some "done")).

(** What the router makes of a request: it is not routed, or it fails on
    an id that is no numeral, or it is one of the five handlers on the
    table that the first segment names. *)
Inductive handled (r : request) (d : db) : db * response -> Prop :=
| handled_next : handled r d (d, Next)
| handled_failed what : handled r d (failed what d)
| handled_get k name rest :
    req_method r = GET -> req_path r = Lit name :: rest -> resource name = Some k ->
    handled r d (get_documents k d)
| handled_post k name rest :
    req_method r = POST -> req_path r = Lit name :: rest -> resource name = Some k ->
    handled r d (post_documents k (req_body r) d)
| handled_put k n name rest :
    req_method r = PUT -> req_path r = Lit name :: rest -> resource name = Some k ->
    handled r d (put_documents k n (req_body r) d)
| handled_delete k n name rest :
    req_method r = DELETE -> req_path r = Lit name :: rest -> resource name = Some k ->
    handled r d (delete_documents k n d)
| handled_validate n name rest :
    req_method r = POST -> req_path r = Lit name :: rest -> resource name = Some Receipts ->
    handled r d (validate_receipt n d).

(** The tables of the other type, as one value. *)
Definition other_tables (k : kind) (d : db) : list document * list item_row * Z :=
  (documents (other k) d, lines (other k) d, next_id (other k) d).



(** Document [id] of type [k] is not there for [d]: an update and a
    deletion answer 404 and leave [d] as it is, and so does the validation
    when the type is the receipts. *)
Definition answers_not_found (k : kind) (id : Z) (d : db) : Prop :=
  (forall b, router (update k id b) d = (d, Reply 404 (Error (noun k ++ " not found")))) /\
  router (remove k id) d = (d, Reply 404 (Error (noun k ++ " not found"))) /\
  (k = Receipts ->
   router (validation Receipts id) d = (d, Reply 404 (Error "Receipt not found"))).

(** The id and the code of a document created in [d]. *)
Definition created_id_code (k : kind) (d : db) : Z * string :=
  (next_id k d, document_code k (List.length (documents k d))).

Definition not_a_deletion (r : request) : Prop := req_method r <> DELETE.

(** No line of [rows] names product [p]. *)
Definition unnamed (rows : list item_row) (p : product) : Prop :=
  forall i, In i rows -> product_id i <> p_id p.

(** [store_P10] after three receipts without lines. *)
Definition store_after_deletion : db :=
  run [create Receipts (order "Acme" None []);
       create Receipts (order "Best" None []);
       create Receipts (order "Core" None [])] store_P10.

(** ** The rest of the delivery form *)

(** [array.filter((_, i) => keep(i))], [i] being the index of the head. *)
Fixpoint filter_index {A : Type} (keep : nat -> bool) (i : nat) (l : list A) : list A :=
  match l with
  | [] => []
  | x :: rest =>
      if keep i then x :: filter_index keep (S i) rest
      else filter_index keep (S i) rest
  end.

(** [handleRemoveItem(index)]. *)
Definition handleRemoveItem (index : nat) (f : form) : form :=
  mkForm (filter_index (fun i => negb (i =? index)%nat) 0 (formData_items f))
         (itemForm f) (errors_item f).

(** The [onChange] of the product select: the value goes into [itemForm],
    and the item error is cleared when the value is the id of a product. *)
Definition onChangeProduct (products : list product) (v : option Z) (f : form) : form :=
  mkForm (formData_items f)
         (mkItemForm v (form_quantity (itemForm f)))
         (match v with
          | Some pid =>
              match find_product products pid with
              | Some _ => NoItemError
              | None => errors_item f
              end
          | None => errors_item f
          end).

(** The [onChange] of the quantity input. *)
Definition onChangeQuantity (v : option Q) (f : form) : form :=
  mkForm (formData_items f)
         (mkItemForm (form_productId (itemForm f)) v)
         (errors_item f).

(** What the user does to the lines of the form. *)
Inductive action :=
| SelectProduct (v : option Z)
| TypeQuantity (v : option Q)
| ClickAdd
| ClickRemove (index : nat).

Definition act (products : list product) (a : action) (f : form) : form :=
  match a with
  | SelectProduct v => onChangeProduct products v f
  | TypeQuantity v => onChangeQuantity v f
  | ClickAdd => fst (handleAddItem products f)
  | ClickRemove index => handleRemoveItem index f
  end.

Definition compose (products : list product) (actions : list action) (f : form) : form :=
  fold_left (fun f a => act products a f) actions f.

(** Line [it] passed the checks of [handleAddItem]: its quantity is a
    positive number ([parseFloat(quantity) <= 0] is false) and it names a
    product of the list. *)
Definition line_checked (products : list product) (it : item) : Prop :=
  js_le (to_double (quantity it)) js_zero = false /\
  exists p, find_product products (productId it) = Some p.

Definition lines_checked (products : list product) (items : list item) : Prop :=
  Forall (line_checked products) items.

(** For every product that has lines, the sum of its lines as
    [handleAddItem] computes it is not above the stock
    ([existingQuantity > product.stock] is false). *)
Definition sums_within_stock (products : list product) (items : list item) : Prop :=
  forall pid p,
    find_product products pid = Some p ->
    In pid (map productId items) ->
    js_lt (to_double (p_stock p)) (existingQuantity items pid) = false.

Definition adds_only (a : action) : Prop :=
  match a with ClickRemove _ => False | _ => True end.

(** ** The specification's line set *)

(** The specification's sum of the quantities already in the set for
    product [pid], a sum of real numbers. *)
Definition spec_reserved (items : list item) (pid : Z) : Q :=
  fold_right (fun it acc => if (productId it =? pid)%Z then quantity it + acc else acc)
             0 items.

(** What the specification says of adding a line for a known product [p]
    with a positive quantity [q], in its words: the line is rejected when
    the sum already in the set plus [q] exceeds the stock, and appended
    otherwise. *)
Definition spec_addLine (products : list product) (f : form) (pid : Z) (q : Q) : Prop :=
  if Qle_bool (spec_reserved (formData_items f) pid + q)
              (match find_product products pid with Some p => p_stock p | None => 0 end)
  then snd (handleAddItem products f) = Appended (mkItem pid q)
  else snd (handleAddItem products f) = Rejected.

(** A product with a stock of 0.3 and a form that holds 0.1 of it and asks
    for 0.2 more; a product with a stock of 1 and a form that holds 1 of
    it and asks for 1e-16 more. *)
Definition powder : product := mkProduct 3 "Powder" "kg" (3 # 10).

Definition form_tenths : form :=
  mkForm [mkItem 3 (1 # 10)] (mkItemForm (Some 3%Z) (Some (2 # 10))) NoItemError.

Definition crate : product := mkProduct 4 "Crate" "pcs" 1.

Definition form_crate : form :=
  mkForm [mkItem 4 1] (mkItemForm (Some 4%Z) (Some (1 # 10000000000000000))) NoItemError.

(** An element of [deliveries], as the page reads it. *)
Record delivery := mkDelivery {
  del_id : Z;
  del_deliveryId : string;
  del_customer : string;
  del_date : string;
  del_status : string;
  del_items : list item
}.

(** [deliveryData], the argument of [addDelivery] and [updateDelivery]. *)
Record deliveryData := mkDeliveryData {
  data_customer : string;
  data_date : string;
  data_items : list item;
  data_status : string
}.

Inductive call :=
| addDelivery (data : deliveryData)
| updateDelivery (id : Z) (data : deliveryData).

(** The state of the modal: [isModalOpen], [selectedDelivery],
    [formData.customer], [formData.date], the lines with [itemForm] and
    [errors.item], and [errors.customer], [errors.date], [errors.items]
    (an unset error and [''] are both the empty string). *)
Record modal := mkModal {
  isModalOpen : bool;
  selectedDelivery : option delivery;
  m_customer : string;
  m_date : string;
  m_lines : form;
  errors_customer : string;
  errors_date : string;
  errors_items : string
}.

Definition blank_lines : form := mkForm [] (mkItemForm None None) NoItemError.

(** [handleOpenModal(delivery)]; [today] is
    [new Date().toISOString().split('T')[0]]. *)
Definition handleOpenModal (today : string) (selected : option delivery) : modal :=
  match selected with
  | Some dl =>
      mkModal true (Some dl) (del_customer dl) (del_date dl)
              (mkForm (del_items dl) (mkItemForm None None) NoItemError) "" "" ""
  | None => mkModal true None "" today blank_lines "" "" ""
  end.

(** [handleCloseModal()]. *)
Definition handleCloseModal (today : string) : modal :=
  mkModal false None "" today blank_lines "" "" "".

Definition is_empty (s : string) : bool :=
  match s with EmptyString => true | _ => false end.

(** [selectedDelivery?.status || 'draft']. *)
Definition status_to_send (selected : option delivery) : string :=
  match selected with
  | Some dl => if is_empty (del_status dl) then "draft" else del_status dl
  | None => "draft"
  end.

(** [handleSubmit(e)]; [trim] is [String.prototype.trim].  The result is
    the next state and the call made, if any. *)
Definition handleSubmit (trim : string -> string) (today : string) (m : modal)
    : modal * option call :=
  let no_customer := is_empty (trim (m_customer m)) in
  let no_date := is_empty (m_date m) in
  let no_items := (List.length (formData_items (m_lines m)) =? 0)%nat in
  if no_customer || no_date || no_items
  then
    (mkModal (isModalOpen m) (selectedDelivery m) (m_customer m) (m_date m)
             (mkForm (formData_items (m_lines m)) (itemForm (m_lines m)) NoItemError)
             (if no_customer then "Customer name is required" else "")
             (if no_date then "Date is required" else "")
             (if no_items then "At least one product is required" else ""),
     None)
  else
    let deliveryData :=
      mkDeliveryData (trim (m_customer m)) (m_date m)
                     (formData_items (m_lines m))
                     (status_to_send (selectedDelivery m)) in
    (handleCloseModal today,
     Some (match selectedDelivery m with
           | Some dl => updateDelivery (del_id dl) deliveryData
           | None => addDelivery deliveryData
           end)).

(** What the user does in the open modal before submitting: typing the
    customer or the date, or working on the lines. *)
Inductive modal_action :=
| TypeCustomer (v : string)
| TypeDate (v : string)
| OnLines (a : action).

Definition modal_act (products : list product) (a : modal_action) (m : modal) : modal :=
  match a with
  | TypeCustomer v =>
      mkModal (isModalOpen m) (selectedDelivery m) v (m_date m) (m_lines m)
              "" (errors_date m) (errors_items m)
  | TypeDate v =>
      mkModal (isModalOpen m) (selectedDelivery m) (m_customer m) v (m_lines m)
              (errors_customer m) "" (errors_items m)
  | OnLines a =>
      mkModal (isModalOpen m) (selectedDelivery m) (m_customer m) (m_date m)
              (act products a (m_lines m))
              (errors_customer m) (errors_date m) (errors_items m)
  end.

Definition modal_run (products : list product) (actions : list modal_action) (m : modal) : modal :=
  fold_left (fun m a => modal_act products a m) actions m.

(** The delivery data of a call. *)
Definition data_of (c : call) : deliveryData :=
  match c with
  | addDelivery data => data
  | updateDelivery _ data => data
  end.

(** The form is complete: the trimmed customer and the date are not empty
    and there is a line. *)
Definition complete (trim : string -> string) (m : modal) : bool :=
  negb (is_empty (trim (m_customer m))) &&
  negb (is_empty (m_date m)) &&
  negb (List.length (formData_items (m_lines m)) =? 0)%nat.

(** A delivery of the page's list, and a [trim] for ASCII blanks at the
    ends of a short name. *)
Definition listed_delivery : delivery :=
  mkDelivery 5 "DEL-005" "Bolt Ltd" "2024-05-01" "ready" [mkItem 1 4].

Definition trim_blanks (s : string) : string :=
  if String.eqb s "  Nut Ltd " then "Nut Ltd"
  else if String.eqb s "   " then "" else s.

(** Product by product, the stock of [ps'] is that of [ps] or more. *)
Definition grown (ps ps' : list product) : Prop :=
  Forall2 (fun p p' => p_id p' = p_id p /\ p_stock p <= p_stock p') ps ps'.

(** The items of the body of a request have non-negative quantities. *)
Definition nonneg_body (r : request) : Prop :=
  Forall (fun it => 0 <= quantity it) (items_or_empty (b_items (req_body r))).

(** * Properties *)

(** ** Lists and tables *)

Lemma filter_find_none {A} (f : A -> bool) (l : list A) :
  find f l = None -> filter f l = [].
Proof.
  induction l as [|a l IH]; simpl; [reflexivity|].
  destruct (f a); [discriminate | exact IH].
Qed.

Lemma filter_find_some {A} (f : A -> bool) (l : list A) (a : A) :
  find f l = Some a -> exists rest, filter f l = a :: rest.
Proof.
  induction l as [|b l IH]; simpl; [discriminate|].
  destruct (f b).
  - intros [= ->]. eexists; reflexivity.
  - exact IH.
Qed.

Lemma filter_negb_same {A} (f : A -> bool) (l : list A) :
  filter f (filter (fun a => negb (f a)) l) = [].
Proof.
  induction l as [|a l IH]; simpl; [reflexivity|].
  destruct (f a) eqn:E; simpl; [exact IH|]. now rewrite E.
Qed.

Lemma set_lines_same k d : set_lines k (lines k d) d = d.
Proof. now destruct k, d. Qed.

Lemma set_documents_same k d : set_documents k (documents k d) d = d.
Proof. now destruct k, d. Qed.

Lemma insert_items_fst k id items d :
  fst (insert_items k id items d)
  = set_lines k (lines k d ++ map (row_of id) items) d.
Proof.
  unfold insert_items.
  assert (G : forall t,
    fst (fold_left
      (fun (acc : db * number) (it : item) =>
         let (d0, totalItems) := acc in
         (set_lines k (lines k d0 ++ [mkItemRow id (productId it) (quantity it)]) d0,
          js_add totalItems (to_double (quantity it)))) items (d, t))
    = set_lines k (lines k d ++ map (row_of id) items) d).
  { revert d. induction items as [|it items IH]; intros d t; simpl.
    - rewrite app_nil_r. symmetry. apply set_lines_same.
    - rewrite IH. destruct k, d; simpl; now rewrite <- app_assoc. }
  apply G.
Qed.

Lemma insert_items_snd k id items d :
  snd (insert_items k id items d)
  = fold_left (fun t it => js_add t (to_double (quantity it))) items js_zero.
Proof.
  unfold insert_items. generalize js_zero as t. revert d.
  induction items as [|it items IH]; intros d t; simpl; [reflexivity|].
  apply IH.
Qed.

(** ** Stock under receipt validation *)

Lemma credit_id q pid p : p_id (credit q pid p) = p_id p.
Proof. unfold credit. now destruct (p_id p =? pid)%Z. Qed.

Lemma add_stock_fold_map rows ps :
  fold_left (fun ps i => add_stock (row_quantity i) (product_id i) ps) rows ps
  = map (fun p => fold_left (fun p i => credit (row_quantity i) (product_id i) p) rows p) ps.
Proof.
  revert ps. induction rows as [|i rows IH]; intros ps; simpl.
  - now rewrite map_id.
  - rewrite IH. unfold add_stock. now rewrite map_map.
Qed.

Lemma credit_fold rows p :
  let p' := fold_left (fun p i => credit (row_quantity i) (product_id i) p) rows p in
  p_id p' = p_id p /\ p_name p' = p_name p /\ p_uom p' = p_uom p /\
  p_stock p' == p_stock p + line_quantity (p_id p) rows.
Proof.
  revert p. induction rows as [|i rows IH]; intros p; simpl.
  - repeat split. lra.
  - destruct (IH (credit (row_quantity i) (product_id i) p)) as (Hi & Hn & Hu & Hs).
    rewrite Hi, Hn, Hu, Hs. rewrite credit_id, (Z.eqb_sym (product_id i)).
    unfold credit. destruct (p_id p =? product_id i)%Z; simpl; repeat split; lra.
Qed.

Lemma add_stock_fold_credited rows ps :
  credited rows ps
    (fold_left (fun ps i => add_stock (row_quantity i) (product_id i) ps) rows ps).
Proof.
  rewrite add_stock_fold_map. unfold credited.
  induction ps as [|p ps IH]; simpl; constructor; [apply credit_fold | exact IH].
Qed.

Lemma credited_nonneg rows ps ps' :
  credited rows ps ps' ->
  nonneg_lines rows ->
  Forall (fun p => 0 <= p_stock p) ps ->
  Forall (fun p => 0 <= p_stock p) ps'.
Proof.
  intros C L. induction C as [|p p' ps ps' (_ & _ & _ & Hs) _ IH]; intros N.
  - constructor.
  - inversion N; subst. constructor; [|now apply IH].
    rewrite Hs.
    assert (0 <= line_quantity (p_id p) rows).
    { clear -L. induction L as [|i rows Hi _ IH]; simpl; [lra|].
      destruct (product_id i =? p_id p)%Z; lra. }
    lra.
Qed.


Lemma find_mark_done id rows r :
  find (fun r => (d_id r =? id)%Z) rows = Some r ->
  find (fun r => (d_id r =? id)%Z) (map (mark_done id) rows) = Some (mark_done id r).
Proof.
  induction rows as [|a rows IH]; simpl; [discriminate|].
  destruct (d_id a =? id)%Z eqn:E.
  - intros [= ->]. unfold mark_done at 1. rewrite E. simpl. rewrite E.
    unfold mark_done. now rewrite E.
  - intros H. unfold mark_done at 1. rewrite E, E. now apply IH.
Qed.

(** The three outcomes of [validate_receipt], by the row found. *)
Lemma validate_receipt_missing id d :
  lookup Receipts id d = None ->
  validate_receipt id d = (d, Reply 404 (Error "Receipt not found")).
Proof.
  unfold lookup, validate_receipt. simpl. intros H.
  now rewrite (filter_find_none _ _ H).
Qed.

Lemma validate_receipt_done id d r :
  lookup Receipts id d = Some r -> is_done r = true ->
  validate_receipt id d = (d, Reply 400 (Error "Receipt already validated")).
Proof.
  unfold lookup, validate_receipt. simpl. intros H D.
  destruct (filter_find_some _ _ _ H) as [rest ->]. now rewrite D.
Qed.

Lemma validate_receipt_open id d r :
  lookup Receipts id d = Some r -> is_done r = false ->
  validate_receipt id d
  = (set_documents Receipts (map (mark_done id) (receipts d))
       (set_products
          (fold_left (fun ps i => add_stock (row_quantity i) (product_id i) ps)
                     (lines_of Receipts id d) (products d)) d),
     Reply 200 (Message "Receipt validated successfully" (Some "done"))).
Proof.
  unfold lookup, validate_receipt. simpl. intros H D.
  destruct (filter_find_some _ _ _ H) as [rest ->]. now rewrite D.
Qed.

Lemma router_validation_receipt id d :
  router (validation Receipts id) d = validate_receipt id d.
Proof. reflexivity. Qed.

Lemma router_validation_delivery id d :
  router (validation Deliveries id) d = (d, Next).
Proof. reflexivity. Qed.

(** ** Validation of receipts *)



(** C4. Validation of a receipt whose status is not [done] answers 200,
    runs one [stock = stock + quantity] per line of the receipt, so that
    each product ends with its stock plus the sum of the quantities of the
    lines that name it (repeated lines for one product accumulate), and
    sets the receipt's status to [done]; lines and other tables are not
    touched. *)
Theorem C4_receipt_validation_adds_each_line :
  forall (d : db) (id : Z) (r : document),
    lookup Receipts id d = Some r ->
    is_done r = false ->
    let d' := fst (router (validation Receipts id) d) in
    snd (router (validation Receipts id) d)
    = Reply 200 (Message "Receipt validated successfully" (Some "done")) /\
    products d'
    = fold_left (fun ps i => add_stock (row_quantity i) (product_id i) ps)
                (lines_of Receipts id d) (products d) /\
    credited (lines_of Receipts id d) (products d) (products d') /\
    lookup Receipts id d' = Some (mark_done id r) /\
    d_status (mark_done id r) = Some "done" /\
    (forall r', In r' (receipts d') -> d_id r' = id -> d_status r' = Some "done") /\
    receipt_items d' = receipt_items d /\
    deliveries d' = deliveries d /\
    delivery_items d' = delivery_items d.
Proof.
  intros d id r H D. rewrite router_validation_receipt.
  rewrite (validate_receipt_open id d r H D). cbv zeta. simpl.
  repeat split.
  - apply add_stock_fold_credited.
  - unfold lookup. simpl. now apply find_mark_done.
  - unfold lookup in H. apply find_some in H. destruct H as [_ E].
    unfold mark_done. now rewrite E.
  - intros r' I E. apply in_map_iff in I. destruct I as (r0 & <- & _).
    unfold mark_done in *. destruct (d_id r0 =? id)%Z eqn:E0; simpl in *.
    + reflexivity.
    + apply Z.eqb_neq in E0. contradiction.
Qed.

Lemma C4_witness :
  let d' := fst (router (validation Receipts 1) store_receipt_4_3) in
  map p_stock (products d') = [10 + 4 + 3] /\
  credited (lines_of Receipts 1 store_receipt_4_3)
           (products store_receipt_4_3) (products d') /\
  line_quantity 1 (lines_of Receipts 1 store_receipt_4_3) == 7 /\
  option_map d_status (lookup Receipts 1 d') = Some (Some "done").
Proof.
  destruct (C4_receipt_validation_adds_each_line store_receipt_4_3 1
              (mkDocument 1 "RCP-001" "Acme" "2024-05-01" (Some "draft") None None)
              eq_refl eq_refl) as (_ & Hp & Hc & Hl & _).
  cbv zeta. split; [rewrite Hp; reflexivity|].
  split; [exact Hc|]. split; [reflexivity|]. rewrite Hl. reflexivity.
Defined.

(** ** What create, update and delete write *)

Lemma router_create k b d : router (create k b) d = post_documents k b d.
Proof. now destruct k. Qed.

Lemma router_update k id b d : router (update k id b) d = put_documents k id b d.
Proof. now destruct k. Qed.

Lemma router_remove k id d : router (remove k id) d = delete_documents k id d.
Proof. now destruct k. Qed.

Lemma products_set_lines k rows d : products (set_lines k rows d) = products d.
Proof. now destruct k. Qed.

Lemma products_set_documents k rows d : products (set_documents k rows d) = products d.
Proof. now destruct k. Qed.

Lemma products_set_next_id k n d : products (set_next_id k n d) = products d.
Proof. now destruct k. Qed.

Lemma lines_set_lines k rows d : lines k (set_lines k rows d) = rows.
Proof. now destruct k. Qed.

Lemma lines_set_documents k rows d : lines k (set_documents k rows d) = lines k d.
Proof. now destruct k. Qed.

Lemma documents_set_lines k rows d : documents k (set_lines k rows d) = documents k d.
Proof. now destruct k. Qed.

Lemma documents_set_documents k rows d : documents k (set_documents k rows d) = rows.
Proof. now destruct k. Qed.

Lemma documents_set_next_id k n d : documents k (set_next_id k n d) = documents k d.
Proof. now destruct k. Qed.

Create Rewrite HintDb tables.

#[local] Hint Rewrite
  products_set_lines products_set_documents products_set_next_id
  lines_set_lines lines_set_documents
  documents_set_lines documents_set_documents documents_set_next_id : tables.

Lemma post_documents_fst k b d :
  fst (post_documents k b d)
  = let d1 := set_next_id k (next_id k d + 1)%Z
                (set_documents k
                   (documents k d ++
                    [mkDocument (next_id k d) (document_code k (List.length (documents k d)))
                       (b_party b) (b_date b) (Some (or_default (b_status b) "draft"))
                       (b_warehouse_id b) (b_location_id b)]) d) in
    set_lines k (lines k d1 ++ map (row_of (next_id k d)) (items_or_empty (b_items b))) d1.
Proof.
  unfold post_documents. cbv zeta.
  destruct (insert_items _ _ _ _) as [d2 t] eqn:E. simpl fst.
  apply (f_equal fst) in E. rewrite insert_items_fst in E. simpl in E.
  now rewrite <- E.
Qed.

Lemma put_documents_missing k id b d :
  lookup k id d = None ->
  put_documents k id b d = (d, Reply 404 (Error (noun k ++ " not found"))).
Proof.
  unfold lookup, put_documents. intros H.
  assert (F : filter (fun r => (d_id r =? id)%Z) (map (update_header id b) (documents k d)) = []).
  { induction (documents k d) as [|a l IH]; simpl in *; [reflexivity|].
    unfold update_header at 1.
    destruct (d_id a =? id)%Z eqn:E; [discriminate|]. rewrite E. now apply IH. }
  now rewrite F.
Qed.

Lemma find_update_header id b rows r :
  find (fun r => (d_id r =? id)%Z) rows = Some r ->
  find (fun r => (d_id r =? id)%Z) (map (update_header id b) rows)
  = Some (update_header id b r).
Proof.
  induction rows as [|a rows IH]; simpl; [discriminate|].
  destruct (d_id a =? id)%Z eqn:E.
  - intros [= ->]. unfold update_header at 1. rewrite E. simpl. rewrite E.
    unfold update_header. now rewrite E.
  - intros H. unfold update_header at 1. rewrite E, E. now apply IH.
Qed.

Lemma put_documents_found k id b d r :
  lookup k id d = Some r ->
  put_documents k id b d
  = (set_lines k
       (filter (fun i => negb (doc_id i =? id)%Z) (lines k d)
        ++ map (row_of id) (items_or_empty (b_items b)))
       (set_documents k (map (update_header id b) (documents k d)) d),
     Reply 200 (Document (update_header id b r) (items_or_empty (b_items b))
                  (fold_left (fun t it => js_add t (to_double (quantity it)))
                             (items_or_empty (b_items b)) js_zero))).
Proof.
  unfold lookup, put_documents. intros H.
  apply (find_update_header id b) in H.
  destruct (filter_find_some _ _ _ H) as [rest ->]. cbv zeta.
  destruct (insert_items _ _ _ _) as [d3 t] eqn:E.
  pose proof (f_equal fst E) as E1. pose proof (f_equal snd E) as E2.
  rewrite insert_items_fst in E1. rewrite insert_items_snd in E2.
  simpl in E1, E2. rewrite <- E1, <- E2.
  rewrite lines_set_lines, lines_set_documents.
  f_equal. destruct k, d; reflexivity.
Qed.

Lemma delete_documents_missing k id d :
  lookup k id d = None ->
  delete_documents k id d = (d, Reply 404 (Error (noun k ++ " not found"))).
Proof.
  unfold lookup, delete_documents. intros H.
  now rewrite (filter_find_none _ _ H).
Qed.

Lemma delete_documents_found k id d r :
  lookup k id d = Some r ->
  delete_documents k id d
  = (set_lines k (on_delete_cascade id (lines k d))
       (set_documents k (filter (fun r => negb (d_id r =? id)%Z) (documents k d)) d),
     Reply 200 (Message (noun k ++ " deleted successfully") None)).
Proof.
  unfold lookup, delete_documents. intros H.
  destruct (filter_find_some _ _ _ H) as [rest ->]. cbv zeta.
  now rewrite lines_set_documents.
Qed.

Lemma post_documents_products k b d :
  products (fst (post_documents k b d)) = products d.
Proof.
  rewrite post_documents_fst. cbv zeta. now autorewrite with tables.
Qed.

Lemma put_documents_products k id b d :
  products (fst (put_documents k id b d)) = products d.
Proof.
  destruct (lookup k id d) as [r|] eqn:H.
  - rewrite (put_documents_found k id b d r H). simpl.
    now autorewrite with tables.
  - now rewrite (put_documents_missing k id b d H).
Qed.

Lemma delete_documents_products k id d :
  products (fst (delete_documents k id d)) = products d.
Proof.
  destruct (lookup k id d) as [r|] eqn:H.
  - rewrite (delete_documents_found k id d r H). simpl.
    now autorewrite with tables.
  - now rewrite (delete_documents_missing k id d H).
Qed.

(** ** Deliveries and the stock *)

(** C1, as the specification states it, fails: the delivery of 4 widgets
    out of a stock of 10 has no offending product, and a validation request
    for it neither subtracts the line nor sets the status to [done]. *)
Lemma C1_delivery_validation_counterexample :
  spec_offending_product (lines_of Deliveries 1 store_delivery_4)
                         (products store_delivery_4) = None /\
  ~ spec_delivery_validation store_delivery_4 1.
Proof.
  split; [reflexivity|].
  unfold spec_delivery_validation. cbv zeta.
  change (spec_offending_product (lines_of Deliveries 1 store_delivery_4)
                                 (products store_delivery_4))
    with (@None product).
  intros [H _]. vm_compute in H. discriminate H.
Qed.

Lemma router_deliveries_products r d rest :
  req_path r = Lit "deliveries" :: rest ->
  products (fst (router r d)) = products d.
Proof.
  intros P. unfold router. rewrite P.
  destruct rest as [|id [|action [|extra rest]]]; simpl.
  - destruct (req_method r); simpl; try reflexivity.
    apply post_documents_products.
  - destruct (req_method r); simpl; try reflexivity;
      destruct id; simpl; try reflexivity.
    + apply put_documents_products.
    + apply delete_documents_products.
  - destruct action; reflexivity.
  - destruct action; reflexivity.
Qed.

(** C1, amended. The router has no validation route for deliveries: a
    validation request for a delivery matches no route and leaves the whole
    database, so every product's stock and the delivery's status, as it
    was, whatever the lines and the stock are; and no request under
    [/deliveries] (list, create, update, delete) changes the products
    table. *)
Theorem C1_deliveries_never_touch_stock :
  forall (d : db) (id : Z),
    router (validation Deliveries id) d = (d, Next) /\
    (forall (r : request) (rest : list segment),
        req_path r = Lit "deliveries" :: rest ->
        products (fst (router r d)) = products d).
Proof.
  intros d id. split.
  - apply router_validation_delivery.
  - intros r rest. apply router_deliveries_products.
Qed.

Lemma C1_witness :
  router (validation Deliveries 1) store_delivery_4 = (store_delivery_4, Next) /\
  map p_stock
      (products (fst (router (update Deliveries 1 (order "Bolt Ltd" (Some "done") [mkItem 1 20]))
                             store_delivery_4))) = [10].
Proof.
  destruct (C1_deliveries_never_touch_stock store_delivery_4 1) as [Hv Hp].
  split; [exact Hv|].
  rewrite (Hp (update Deliveries 1 (order "Bolt Ltd" (Some "done") [mkItem 1 20]))
              [Num 1] eq_refl).
  reflexivity.
Defined.

(** ** Non-negative stock *)

Lemma validate_receipt_cases id d :
  validate_receipt id d = (d, Reply 404 (Error "Receipt not found")) \/
  validate_receipt id d = (d, Reply 400 (Error "Receipt already validated")) \/
  validate_receipt id d
  = (set_documents Receipts (map (mark_done id) (receipts d))
       (set_products
          (fold_left (fun ps i => add_stock (row_quantity i) (product_id i) ps)
                     (lines_of Receipts id d) (products d)) d),
     Reply 200 (Message "Receipt validated successfully" (Some "done"))).
Proof.
  destruct (lookup Receipts id d) as [r|] eqn:H.
  - destruct (is_done r) eqn:D.
    + right; left. now apply validate_receipt_done with r.
    + right; right. now apply validate_receipt_open with r.
  - left. now apply validate_receipt_missing.
Qed.

Lemma nonneg_lines_filter f rows : nonneg_lines rows -> nonneg_lines (filter f rows).
Proof.
  unfold nonneg_lines. rewrite !Forall_forall. intros H i I.
  apply filter_In in I. now apply H.
Qed.

Lemma validation_step k id d :
  nonneg_stock d -> nonneg_lines (receipt_items d) ->
  nonneg_stock (fst (router (validation k id) d)) /\
  nonneg_lines (receipt_items (fst (router (validation k id) d))) /\
  validation_reply (snd (router (validation k id) d)).
Proof.
  intros N L. destruct k.
  - rewrite router_validation_receipt.
    destruct (validate_receipt_cases id d) as [-> | [-> | ->]]; simpl.
    + repeat split; auto. right; right; left; reflexivity.
    + repeat split; auto. right; left; reflexivity.
    + repeat split; auto; [|left; reflexivity].
      unfold nonneg_stock. simpl.
      apply credited_nonneg with (rows := lines_of Receipts id d) (ps := products d).
      * apply add_stock_fold_credited.
      * now apply nonneg_lines_filter.
      * exact N.
  - rewrite router_validation_delivery. simpl.
    repeat split; auto. right; right; right; reflexivity.
Qed.

(** C2, as the specification states it, fails: a receipt stores whatever
    quantity its body gives, and the validation of a receipt whose line has
    quantity -15 takes the widget's stock from 10 to -5 and answers 200. *)
Lemma C2_non_negativity_counterexample :
  nonneg_stock store_receipt_minus_15 /\
  router (validation Receipts 1) store_receipt_minus_15
  = (fst (router (validation Receipts 1) store_receipt_minus_15),
     Reply 200 (Message "Receipt validated successfully" (Some "done"))) /\
  ~ spec_non_negativity store_receipt_minus_15 [(Receipts, 1%Z)].
Proof.
  assert (N : nonneg_stock store_receipt_minus_15).
  { repeat constructor. simpl. lra. }
  split; [exact N|]. split; [reflexivity|].
  intros C. specialize (C N). inversion C as [|s l H _]; subst.
  inversion H as [|p ps Hp _]; subst.
  vm_compute in Hp. apply Hp. reflexivity.
Qed.

(** C2, amended. From non-negative stocks and non-negative stored receipt
    line quantities, every product's stock is non-negative after each
    request of any sequence of validation requests, for receipts and for
    deliveries; each request is answered by the receipt validation's
    success, "already validated" or "not found", or matches no route (the
    deliveries): no validation is refused for want of stock. *)
Theorem C2_validations_keep_stock_nonneg :
  forall (vs : list (kind * Z)) (d : db),
    nonneg_stock d ->
    nonneg_lines (receipt_items d) ->
    Forall (fun s => nonneg_stock (fst s) /\ validation_reply (snd s))
           (trace (validations vs) d).
Proof.
  induction vs as [|[k id] vs IH]; intros d N L; simpl.
  - constructor.
  - destruct (validation_step k id d N L) as (N1 & L1 & R1).
    constructor; [split; assumption|]. now apply IH.
Qed.

Lemma C2_witness :
  Forall (fun s => nonneg_stock (fst s) /\ validation_reply (snd s))
         (trace (validations [(Receipts, 1%Z); (Deliveries, 1%Z); (Receipts, 1%Z)])
                store_receipt_4_3).
Proof.
  apply C2_validations_keep_stock_nonneg.
  - repeat constructor. simpl. lra.
  - repeat constructor; simpl; lra.
Defined.

(** ** Identifiers *)

Lemma cycle_zero n cur :
  cur = "" \/ cur = "0" -> cycle n "0" cur = zeros n.
Proof.
  revert cur. induction n as [|n IH]; intros cur H; simpl; [reflexivity|].
  destruct H as [-> | ->]; simpl; f_equal; apply IH; now left.
Qed.

Lemma string_length_app s t :
  String.length (s ++ t) = (String.length s + String.length t)%nat.
Proof. induction s as [|c s IH]; simpl; [reflexivity | now rewrite IH]. Qed.

Lemma zeros_length n : String.length (zeros n) = n.
Proof. induction n as [|n IH]; simpl; [reflexivity | now rewrite IH]. Qed.

Lemma padStart_zero_pad n : padStart 3 "0" (String_of n) = spec_zero_pad 3 n.
Proof.
  unfold padStart, spec_zero_pad.
  destruct (3 <=? String.length (String_of n))%nat eqn:E.
  - apply Nat.leb_le in E.
    replace (3 - String.length (String_of n))%nat with O by lia. reflexivity.
  - rewrite cycle_zero by now right. reflexivity.
Qed.

Lemma document_code_spec k count : document_code k count = spec_code k count.
Proof. unfold document_code, spec_code. cbv zeta. now rewrite padStart_zero_pad. Qed.

Lemma decimal_value_zeros j m :
  exists u, NilEmpty.uint_of_string (zeros j ++ String_of m) = Some u /\
            Nat.of_uint u = m.
Proof.
  induction j as [|j (u & Hu & Hm)]; simpl.
  - exists (Nat.to_uint m). split.
    + apply NilEmpty.usu.
    + apply DecimalNat.Unsigned.of_to.
  - exists (Decimal.D0 u). rewrite Hu. split; [reflexivity|].
    rewrite <- Hm. reflexivity.
Qed.

Lemma post_documents_snd k b d :
  snd (post_documents k b d)
  = Reply 201
      (Document
         (mkDocument (next_id k d) (document_code k (List.length (documents k d)))
            (b_party b) (b_date b) (Some (or_default (b_status b) "draft"))
            (b_warehouse_id b) (b_location_id b))
         (items_or_empty (b_items b))
         (fold_left (fun t it => js_add t (to_double (quantity it)))
                    (items_or_empty (b_items b)) js_zero)).
Proof.
  unfold post_documents. cbv zeta.
  destruct (insert_items _ _ _ _) as [d2 t] eqn:E. simpl snd.
  apply (f_equal snd) in E. rewrite insert_items_snd in E. simpl in E.
  now rewrite <- E.
Qed.

(** C5. Creating a document of either type answers 201 with, and appends to
    its table, a row whose code is the type's prefix ([RCP-] or [DEL-])
    followed by the number of documents of that type plus one, written in
    decimal with zeros in front up to three characters: the digits after
    the prefix are at least three and write that number.  Three receipts
    created one after the other in an empty store are [RCP-001], [RCP-002]
    and [RCP-003]. *)
Theorem C5_document_code_is_prefix_and_padded_count :
  forall (k : kind) (b : body) (d : db),
    let count := List.length (documents k d) in
    (exists row total,
        snd (router (create k b) d)
        = Reply 201 (Document row (items_or_empty (b_items b)) total) /\
        d_code row = spec_code k count /\
        documents k (fst (router (create k b) d)) = (documents k d ++ [row])%list) /\
    spec_code k count = prefix k ++ spec_zero_pad 3 (count + 1) /\
    decimal_value (spec_zero_pad 3 (count + 1)) = Some (count + 1)%nat /\
    (3 <= String.length (spec_zero_pad 3 (count + 1)))%nat /\
    map d_code
        (receipts (run [create Receipts (order "Acme" None []);
                        create Receipts (order "Acme" (Some "ready") [mkItem 1 2]);
                        create Receipts b] empty_store))
    = ["RCP-001"; "RCP-002"; "RCP-003"].
Proof.
  intros k b d count. repeat split.
  - rewrite router_create. eexists. eexists. split; [apply post_documents_snd|].
    split.
    + simpl. apply document_code_spec.
    + rewrite post_documents_fst. cbv zeta. now autorewrite with tables.
  - unfold decimal_value, spec_zero_pad.
    destruct (decimal_value_zeros (3 - String.length (String_of (count + 1))) (count + 1))
      as (u & -> & Hm).
    simpl. now rewrite Hm.
  - unfold spec_zero_pad. rewrite string_length_app, zeros_length. lia.
  - unfold run. simpl fold_left. rewrite router_create.
    pose proof (post_documents_fst Receipts b) as F. simpl in F. rewrite F.
    reflexivity.
Qed.

(** ** Totals *)

Lemma fold_left_Qplus_shift (l : list Q) (a : Q) :
  fold_left Qplus l a == a + fold_left Qplus l 0.
Proof.
  revert a. induction l as [|x l IH]; intros a; simpl; [lra|].
  rewrite (IH (a + x)), (IH (0 + x)). lra.
Qed.

(** The total a list route reports for a document is the sum of the
    quantities of the lines it reports for it. *)
Lemma get_documents_total_is_sum k d :
  Forall (fun s => s_totalItems s == totalQuantity (s_items s))
         (listed (get_documents k d)).
Proof.
  unfold listed, get_documents. simpl. apply Forall_forall. intros s I.
  apply in_map_iff in I. destruct I as (r & <- & _). simpl.
  unfold sum_quantity.
  set (rows := filter (fun i => (doc_id i =? d_id r)%Z) (lines k d)).
  assert (E : fold_left Qplus (map row_quantity rows) 0
              == totalQuantity (map (fun i => mkItem (product_id i) (row_quantity i)) rows)).
  { induction rows as [|i rows IH]; simpl; [lra|].
    rewrite fold_left_Qplus_shift, IH. lra. }
  unfold number_or_zero.
  destruct (Qeq_bool _ 0) eqn:Z0.
  - apply Qeq_bool_iff in Z0. rewrite <- E, Z0. lra.
  - exact E.
Qed.

(** C6. For the two lines of quantities 2 and 3 of one product, the sum of
    the quantities is 5 and the list route reports 5 as [totalItems] (the
    "Total Items" column of the table), but the "Total Items" figure under
    the added items of the form is the number of lines, 2. *)
Theorem C6_form_total_items_counts_lines :
  totalQuantity two_and_three == 5 /\
  map s_totalItems (listed (router (mkRequest GET [Lit "deliveries"] no_body)
                                   store_delivery_2_3)) = [5] /\
  map s_items (listed (router (mkRequest GET [Lit "deliveries"] no_body)
                              store_delivery_2_3)) = [two_and_three] /\
  modal_total_items form_two_and_three = 2%nat /\
  ~ inject_Z (Z.of_nat (modal_total_items form_two_and_three))
    == totalQuantity (formData_items form_two_and_three).
Proof.
  repeat split; try reflexivity.
  vm_compute. discriminate.
Qed.

(** ** Composing the lines of a delivery *)

(** C7, as the specification states it, fails in both directions, because
    the sums of the code are sums of doubles.  With 0.1 in the form, 0.2
    asked and a stock of 0.3, the sum of the quantities does not exceed the
    stock and the code rejects the line, reporting 0.19999999999999998 as
    available.  With 1 in the form, 1e-16 asked and a stock of 1, the sum
    exceeds the stock and the code appends the line. *)
Lemma C7_real_sum_counterexample :
  ~ spec_addLine [powder] form_tenths 3 (2 # 10) /\
  handleAddItem [powder] form_tenths
  = (mkForm [mkItem 3 (1 # 10)] (mkItemForm (Some 3%Z) (Some (2 # 10)))
            (InsufficientStock (S754_finite false 7205759403792793 (-55)) "kg"),
     Rejected) /\
  ~ spec_addLine [crate] form_crate 4 (1 # 10000000000000000) /\
  snd (handleAddItem [crate] form_crate) = Appended (mkItem 4 (1 # 10000000000000000)).
Proof.
  split; [|split; [|split]].
  - unfold spec_addLine.
    change (Qle_bool (spec_reserved (formData_items form_tenths) 3 + (2 # 10))
              match find_product [powder] 3 with
              | Some p => p_stock p
              | None => 0
              end) with true.
    cbv iota. intros H. vm_compute in H. discriminate H.
  - vm_compute. reflexivity.
  - unfold spec_addLine.
    change (Qle_bool (spec_reserved (formData_items form_crate) 4
                      + (1 # 10000000000000000))
              match find_product [crate] 4 with
              | Some p => p_stock p
              | None => 0
              end) with false.
    cbv iota. intros H. vm_compute in H. discriminate H.
  - vm_compute. reflexivity.
Qed.

(** C7, amended. [handleAddItem] rejects the line, leaving the lines of the
    form as they are, when no product is selected, when the quantity is
    not a number or is not a positive number, and when the selected product
    is not among the products.  For a known product and a positive quantity
    [q] it rejects the line when the sum of doubles that it computes, the
    quantities already in the form for that product added from the left
    and then [q], is above the product's stock, reporting as available the
    difference of doubles stock minus the quantities already in the form;
    otherwise it appends the line [(p, q)] after the lines of the form,
    whether or not the product is already there. *)
Theorem C7_handleAddItem_checks_and_appends :
  forall (products : list product) (f : form),
    let items := formData_items f in
    (form_productId (itemForm f) = None \/
     form_quantity (itemForm f) = None \/
     (exists q, form_quantity (itemForm f) = Some q /\
                js_le (to_double q) js_zero = true) ->
     handleAddItem products f = (mkForm items (itemForm f) InvalidItem, Rejected)) /\
    (forall pid q,
        form_productId (itemForm f) = Some pid ->
        form_quantity (itemForm f) = Some q ->
        (find_product products pid = None ->
         snd (handleAddItem products f) = Rejected /\
         formData_items (fst (handleAddItem products f)) = items) /\
        (forall p, find_product products pid = Some p ->
                   js_le (to_double q) js_zero = false ->
                   js_lt (to_double (p_stock p))
                         (js_add (existingQuantity items pid) (to_double q)) = true ->
                   handleAddItem products f
                   = (mkForm items (itemForm f)
                             (InsufficientStock
                                (js_sub (to_double (p_stock p)) (existingQuantity items pid))
                                (p_uom p)),
                      Rejected)) /\
        (forall p, find_product products pid = Some p ->
                   js_le (to_double q) js_zero = false ->
                   js_lt (to_double (p_stock p))
                         (js_add (existingQuantity items pid) (to_double q)) = false ->
                   handleAddItem products f
                   = (mkForm (items ++ [mkItem pid q]) (mkItemForm None None) NoItemError,
                      Appended (mkItem pid q)))).
Proof.
  intros products f items. unfold handleAddItem. fold items. cbv zeta. split.
  - intros [H | [H | (q & H & L)]].
    + now rewrite H.
    + rewrite H. now destruct (form_productId (itemForm f)).
    + rewrite H, L. now destruct (form_productId (itemForm f)).
  - intros pid q Hp Hq. rewrite Hp, Hq. split; [|split].
    + intros Unknown.
      destruct (js_le (to_double q) js_zero); [split; reflexivity|].
      now rewrite Unknown.
    + intros p F Pos Over. now rewrite F, Pos, Over.
    + intros p F Pos Fits. now rewrite F, Pos, Fits.
Qed.

Lemma C7_witness :
  handleAddItem [widget; gadget] (form_asking None (Some 1))
  = (mkForm [mkItem 1 4] (mkItemForm None (Some 1)) InvalidItem, Rejected) /\
  snd (handleAddItem [widget; gadget] (form_asking (Some 9%Z) (Some 1))) = Rejected /\
  handleAddItem [widget; gadget] (form_asking (Some 1%Z) (Some 7))
  = (mkForm [mkItem 1 4] (mkItemForm (Some 1%Z) (Some 7))
            (InsufficientStock (js_sub (to_double 10) (existingQuantity [mkItem 1 4] 1)) "pcs"),
     Rejected) /\
  handleAddItem [widget; gadget] (form_asking (Some 1%Z) (Some 6))
  = (mkForm [mkItem 1 4; mkItem 1 6] (mkItemForm None None) NoItemError,
     Appended (mkItem 1 6)) /\
  handleAddItem [powder] form_tenths
  = (mkForm [mkItem 3 (1 # 10)] (mkItemForm (Some 3%Z) (Some (2 # 10)))
            (InsufficientStock
               (js_sub (to_double (3 # 10)) (existingQuantity [mkItem 3 (1 # 10)] 3)) "kg"),
     Rejected).
Proof.
  split.
  - destruct (C7_handleAddItem_checks_and_appends [widget; gadget]
                (form_asking None (Some 1))) as [H _].
    apply H. left. reflexivity.
  - split.
    + destruct (C7_handleAddItem_checks_and_appends [widget; gadget]
                  (form_asking (Some 9%Z) (Some 1))) as [_ H].
      destruct (H 9%Z 1 eq_refl eq_refl) as [Hn _].
      apply Hn. reflexivity.
    + destruct (C7_handleAddItem_checks_and_appends [widget; gadget]
                  (form_asking (Some 1%Z) (Some 7))) as [_ H7].
      destruct (H7 1%Z 7 eq_refl eq_refl) as (_ & Hover & _).
      destruct (C7_handleAddItem_checks_and_appends [widget; gadget]
                  (form_asking (Some 1%Z) (Some 6))) as [_ H6].
      destruct (H6 1%Z 6 eq_refl eq_refl) as (_ & _ & Hfits).
      destruct (C7_handleAddItem_checks_and_appends [powder] form_tenths) as [_ Ht].
      destruct (Ht 3%Z (2 # 10) eq_refl eq_refl) as (_ & Hthird & _).
      split; [|split].
      * apply (Hover widget eq_refl); reflexivity.
      * apply (Hfits widget eq_refl); reflexivity.
      * apply (Hthird powder eq_refl); reflexivity.
Defined.

(** ** Editing and deleting *)

Lemma filter_other_id (id id' : Z) (rows : list item_row) :
  id' <> id ->
  filter (fun i => (doc_id i =? id')%Z) (filter (fun i => negb (doc_id i =? id)%Z) rows)
  = filter (fun i => (doc_id i =? id')%Z) rows.
Proof.
  intros N. induction rows as [|i rows IH]; simpl; [reflexivity|].
  destruct (doc_id i =? id)%Z eqn:E; simpl.
  - apply Z.eqb_eq in E.
    assert (F : (doc_id i =? id')%Z = false) by (apply Z.eqb_neq; congruence).
    now rewrite F.
  - destruct (doc_id i =? id')%Z; [f_equal|]; exact IH.
Qed.

Lemma filter_row_of_same id items :
  filter (fun i => (doc_id i =? id)%Z) (map (row_of id) items) = map (row_of id) items.
Proof.
  induction items as [|it items IH]; simpl; [reflexivity|].
  now rewrite Z.eqb_refl, IH.
Qed.

Lemma filter_row_of_other id id' items :
  id' <> id ->
  filter (fun i => (doc_id i =? id')%Z) (map (row_of id) items) = [].
Proof.
  intros N. induction items as [|it items IH]; simpl; [reflexivity|].
  assert (F : (id =? id')%Z = false) by (apply Z.eqb_neq; congruence).
  now rewrite F.
Qed.

Lemma lines_of_after_put k id b d r id' :
  lookup k id d = Some r ->
  lines_of k id' (fst (put_documents k id b d))
  = if (id' =? id)%Z then map (row_of id) (items_or_empty (b_items b))
    else lines_of k id' d.
Proof.
  intros H. rewrite (put_documents_found k id b d r H). unfold lines_of. simpl.
  rewrite lines_set_lines, filter_app.
  destruct (id' =? id)%Z eqn:E.
  - apply Z.eqb_eq in E. subst id'.
    now rewrite filter_negb_same, filter_row_of_same.
  - apply Z.eqb_neq in E.
    now rewrite filter_other_id, filter_row_of_other, app_nil_r.
Qed.

(** C8. Updating an existing document of either type answers 200 and
    replaces its lines wholesale: afterwards the lines of the document are
    exactly the lines of the request, in their order, none of the former
    lines remaining; the lines of every other document are as before, and
    the products table is unchanged. *)
Theorem C8_update_replaces_lines_wholesale :
  forall (k : kind) (d : db) (id : Z) (b : body) (r : document),
    lookup k id d = Some r ->
    let d' := fst (router (update k id b) d) in
    (exists row total,
        snd (router (update k id b) d)
        = Reply 200 (Document row (items_or_empty (b_items b)) total)) /\
    lines_of k id d' = map (row_of id) (items_or_empty (b_items b)) /\
    (forall id', id' <> id -> lines_of k id' d' = lines_of k id' d) /\
    products d' = products d.
Proof.
  intros k d id b r H. cbv zeta. rewrite router_update. repeat split.
  - rewrite (put_documents_found k id b d r H). eexists. eexists. reflexivity.
  - rewrite (lines_of_after_put k id b d r id H). now rewrite Z.eqb_refl.
  - intros id' N. rewrite (lines_of_after_put k id b d r id' H).
    apply Z.eqb_neq in N. now rewrite N.
  - apply put_documents_products.
Qed.

Lemma C8_witness :
  let d' := fst (router (update Deliveries 1 (order "Bolt Ltd" (Some "draft") [mkItem 1 3]))
                        store_delivery_5_2) in
  lines_of Deliveries 1 store_delivery_5_2 = [mkItemRow 1 1 5; mkItemRow 1 2 2] /\
  lines_of Deliveries 1 d' = [mkItemRow 1 1 3] /\
  List.length (lines_of Deliveries 1 d') = 1%nat /\
  products d' = [widget; gadget].
Proof.
  destruct (C8_update_replaces_lines_wholesale Deliveries store_delivery_5_2 1
              (order "Bolt Ltd" (Some "draft") [mkItem 1 3])
              (mkDocument 1 "DEL-001" "Bolt Ltd" "2024-05-01" (Some "draft") None None)
              eq_refl) as (_ & Hl & _ & Hp).
  cbv zeta. split; [reflexivity|]. rewrite Hl, Hp. repeat split.
Defined.

Lemma find_filter_negb {A} (f : A -> bool) (l : list A) :
  find f (filter (fun a => negb (f a)) l) = None.
Proof.
  induction l as [|a l IH]; simpl; [reflexivity|].
  destruct (f a) eqn:E; simpl; [exact IH|]. now rewrite E.
Qed.

(** C9. Deleting an existing document of either type, whatever its status,
    answers 200, removes the document's row and (by the cascade of the
    items table) its lines, leaves the other documents' lines in place, and
    leaves the products table unchanged: the stock that a validation added
    stays added. *)
Theorem C9_delete_changes_no_stock :
  forall (k : kind) (d : db) (id : Z) (r : document),
    lookup k id d = Some r ->
    let d' := fst (router (remove k id) d) in
    snd (router (remove k id) d)
    = Reply 200 (Message (noun k ++ " deleted successfully") None) /\
    lookup k id d' = None /\
    lines_of k id d' = [] /\
    (forall id', id' <> id -> lines_of k id' d' = lines_of k id' d) /\
    products d' = products d.
Proof.
  intros k d id r H. cbv zeta. rewrite router_remove.
  rewrite (delete_documents_found k id d r H). simpl. repeat split.
  - unfold lookup. autorewrite with tables. apply find_filter_negb.
  - unfold lines_of, on_delete_cascade. autorewrite with tables.
    apply filter_negb_same.
  - intros id' N. unfold lines_of, on_delete_cascade. autorewrite with tables.
    now apply filter_other_id.
  - now autorewrite with tables.
Qed.

Lemma C9_witness :
  let d' := fst (router (remove Receipts 1) store_receipt_validated) in
  option_map d_status (lookup Receipts 1 store_receipt_validated) = Some (Some "done") /\
  map p_stock (products store_receipt_validated) = [10 + 4 + 3] /\
  lookup Receipts 1 d' = None /\
  lines_of Receipts 1 d' = [] /\
  map p_stock (products d') = [10 + 4 + 3].
Proof.
  destruct (C9_delete_changes_no_stock Receipts store_receipt_validated 1
              (mkDocument 1 "RCP-001" "Acme" "2024-05-01" (Some "done") None None)
              eq_refl) as (_ & Hg & Hl & _ & Hp).
  cbv zeta. rewrite Hg, Hl, Hp. repeat split.
Defined.

(** ** Updating a validated document *)

(** C10. Updating an existing document of either type answers 200
    whatever the document's status is, [done] included, and stores the
    status of the request as the document's status.  For a receipt, when
    that status is not [done], a validation after the update is accepted
    (200) and adds the quantities of the lines of the request to the
    stock once more, and sets the status to [done] again. *)
Theorem C10_update_reopens_validated_document :
  forall (k : kind) (d : db) (id : Z) (b : body) (r : document),
    lookup k id d = Some r ->
    let d1 := fst (router (update k id b) d) in
    (exists total,
        snd (router (update k id b) d)
        = Reply 200 (Document (update_header id b r) (items_or_empty (b_items b)) total)) /\
    lookup k id d1 = Some (update_header id b r) /\
    d_status (update_header id b r) = b_status b /\
    (k = Receipts -> b_status b <> Some "done" ->
     let d2 := fst (router (validation Receipts id) d1) in
     snd (router (validation Receipts id) d1)
     = Reply 200 (Message "Receipt validated successfully" (Some "done")) /\
     credited (map (row_of id) (items_or_empty (b_items b))) (products d) (products d2) /\
     option_map d_status (lookup Receipts id d2) = Some (Some "done")).
Proof.
  intros k d id b r H. cbv zeta. rewrite router_update.
  assert (E : (d_id r =? id)%Z = true).
  { unfold lookup in H. now apply find_some in H. }
  assert (S : d_status (update_header id b r) = b_status b).
  { unfold update_header. now rewrite E. }
  assert (L1 : lookup k id (fst (put_documents k id b d)) = Some (update_header id b r)).
  { rewrite (put_documents_found k id b d r H). unfold lookup. simpl.
    rewrite documents_set_lines, documents_set_documents.
    now apply find_update_header. }
  split; [|split; [exact L1|split; [exact S|]]].
  - rewrite (put_documents_found k id b d r H). eexists. reflexivity.
  - intros -> Reopened. rewrite router_validation_receipt.
    assert (O : is_done (update_header id b r) = false).
    { unfold is_done. rewrite S. destruct (b_status b) as [s|]; [|reflexivity].
      destruct (String.eqb s "done") eqn:Es; [|reflexivity].
      apply String.eqb_eq in Es. subst s. now contradiction Reopened. }
    rewrite (validate_receipt_open id _ _ L1 O). simpl fst. simpl snd.
    split; [reflexivity|]. split.
    + simpl products.
      rewrite (lines_of_after_put Receipts id b d r id H), Z.eqb_refl.
      rewrite put_documents_products.
      apply add_stock_fold_credited.
    + unfold lookup in *. simpl in *.
      rewrite (find_mark_done id _ _ L1). simpl.
      unfold mark_done. unfold update_header. rewrite E. simpl. now rewrite E.
Qed.

Lemma C10_witness :
  let reopen := update Receipts 1 (order "Acme" (Some "draft") [mkItem 1 4; mkItem 1 3]) in
  let d1 := fst (router reopen store_receipt_validated) in
  let d2 := fst (router (validation Receipts 1) d1) in
  option_map d_status (lookup Receipts 1 store_receipt_validated) = Some (Some "done") /\
  option_map d_status (lookup Receipts 1 d1) = Some (Some "draft") /\
  snd (router (validation Receipts 1) d1)
  = Reply 200 (Message "Receipt validated successfully" (Some "done")) /\
  map p_stock (products store_receipt_validated) = [10 + 4 + 3] /\
  map p_stock (products d2) = [10 + 4 + 3 + 4 + 3].
Proof.
  destruct (C10_update_reopens_validated_document Receipts store_receipt_validated 1
              (order "Acme" (Some "draft") [mkItem 1 4; mkItem 1 3])
              (mkDocument 1 "RCP-001" "Acme" "2024-05-01" (Some "done") None None)
              eq_refl) as (_ & Hl & _ & Hv).
  destruct (Hv eq_refl) as (Hr & _ & _); [discriminate|].
  cbv zeta. rewrite Hl, Hr. repeat split.
Defined.

(** * Further properties of the document routes *)

(** ** The shape of a routed request *)

Lemma resource_of_name k : resource (resource_name k) = Some k.
Proof. now destruct k. Qed.

Lemma router_handled r d : handled r d (router r d).
Proof.
  unfold router.
  destruct (req_path r) as [|[name|n] [|id [|[action|m] [|extra rest]]]] eqn:P;
    try apply handled_next.
  - destruct (resource name) as [k|] eqn:R; [|apply handled_next].
    destruct (req_method r) eqn:M; try apply handled_next.
    + now apply handled_get with (name := name) (rest := []).
    + now apply handled_post with (name := name) (rest := []).
  - destruct (resource name) as [k|] eqn:R; [|apply handled_next].
    destruct (req_method r) eqn:M; try apply handled_next.
    + destruct id as [s|n]; simpl; [apply handled_failed|].
      now apply handled_put with (name := name) (rest := [Num n]).
    + destruct id as [s|n]; simpl; [apply handled_failed|].
      now apply handled_delete with (name := name) (rest := [Num n]).
  - destruct (resource name) as [k|] eqn:R; [|apply handled_next].
    destruct k; [|destruct (req_method r); apply handled_next].
    destruct (req_method r) eqn:M; try apply handled_next.
    destruct (same_segment action "validate"); [|apply handled_next].
    destruct id as [s|n]; simpl; [apply handled_failed|].
    now apply handled_validate with (name := name) (rest := [Num n; Lit action]).
Qed.

(** ** What a request leaves alone *)

Lemma validate_receipt_products_unless_validated n d :
  snd (validate_receipt n d) <> validated ->
  products (fst (validate_receipt n d)) = products d.
Proof.
  destruct (validate_receipt_cases n d) as [-> | [-> | ->]]; simpl;
    [reflexivity | reflexivity |].
  intros H. now contradiction H.
Qed.

(** X1. Stock moves only with a receipt validation that succeeded: a
    request that the router answers in any other way (a list, a creation,
    an update, a deletion, a refused validation, an error, no route)
    leaves the products table as it was. *)
Theorem only_validated_receipts_move_stock :
  forall (r : request) (d : db),
    snd (router r d) <> validated ->
    products (fst (router r d)) = products d.
Proof.
  intros r d. destruct (router_handled r d); try reflexivity; intros Hv.
  - apply post_documents_products.
  - apply put_documents_products.
  - apply delete_documents_products.
  - now apply validate_receipt_products_unless_validated.
Qed.

Lemma only_validated_receipts_move_stock_witness :
  products (fst (router (update Receipts 1 (order "Acme" (Some "done") [mkItem 1 50]))
                        store_receipt_4_3))
  = [widget].
Proof.
  rewrite only_validated_receipts_move_stock; [reflexivity|].
  discriminate.
Defined.

Lemma other_tables_set_lines k rows d :
  other_tables k (set_lines k rows d) = other_tables k d.
Proof. now destruct k. Qed.

Lemma other_tables_set_documents k rows d :
  other_tables k (set_documents k rows d) = other_tables k d.
Proof. now destruct k. Qed.

Lemma other_tables_set_next_id k n d :
  other_tables k (set_next_id k n d) = other_tables k d.
Proof. now destruct k. Qed.

#[local] Hint Rewrite
  other_tables_set_lines other_tables_set_documents other_tables_set_next_id : tables.

Lemma resource_name_inj k k' : resource_name k = resource_name k' -> k = k'.
Proof. destruct k, k'; simpl; intros H; try reflexivity; discriminate H. Qed.

Lemma post_documents_other k b d :
  other_tables k (fst (post_documents k b d)) = other_tables k d.
Proof. rewrite post_documents_fst. cbv zeta. now autorewrite with tables. Qed.

Lemma put_documents_other k id b d :
  other_tables k (fst (put_documents k id b d)) = other_tables k d.
Proof.
  destruct (lookup k id d) as [r|] eqn:H.
  - rewrite (put_documents_found k id b d r H). simpl. now autorewrite with tables.
  - now rewrite (put_documents_missing k id b d H).
Qed.

Lemma delete_documents_other k id d :
  other_tables k (fst (delete_documents k id d)) = other_tables k d.
Proof.
  destruct (lookup k id d) as [r|] eqn:H.
  - rewrite (delete_documents_found k id d r H). simpl. now autorewrite with tables.
  - now rewrite (delete_documents_missing k id d H).
Qed.

Lemma validate_receipt_other n d :
  other_tables Receipts (fst (validate_receipt n d)) = other_tables Receipts d.
Proof.
  destruct (validate_receipt_cases n d) as [-> | [-> | ->]]; reflexivity.
Qed.

(** X2. A request under [/receipts] leaves the deliveries, their lines and
    their id sequence as they were, and a request under [/deliveries]
    leaves the receipts, their lines and their id sequence as they were. *)
Theorem requests_keep_to_their_document_type :
  forall (r : request) (d : db) (k : kind) (rest : list segment),
    req_path r = Lit (resource_name k) :: rest ->
    other_tables k (fst (router r d)) = other_tables k d.
Proof.
  intros r d k rest P.
  destruct (router_handled r d) as [| | k0 name rest0 _ P0 R0 | k0 name rest0 _ P0 R0
                                    | k0 n name rest0 _ P0 R0 | k0 n name rest0 _ P0 R0
                                    | n name rest0 _ P0 R0];
    try reflexivity;
    rewrite P in P0; injection P0 as E _; subst name;
    rewrite resource_of_name in R0; injection R0 as R0; subst k.
  - apply post_documents_other.
  - apply put_documents_other.
  - apply delete_documents_other.
  - apply validate_receipt_other.
Qed.

Lemma requests_keep_to_their_document_type_witness :
  other_tables Receipts (fst (router (validation Receipts 1) store_receipt_4_3))
  = ([], [], 1%Z) /\
  other_tables Deliveries (fst (router (remove Deliveries 1) store_delivery_5_2))
  = ([], [], 1%Z).
Proof.
  split.
  - rewrite (requests_keep_to_their_document_type (validation Receipts 1)
               store_receipt_4_3 Receipts [Num 1; Lit "validate"] eq_refl).
    reflexivity.
  - rewrite (requests_keep_to_their_document_type (remove Deliveries 1)
               store_delivery_5_2 Deliveries [Num 1] eq_refl).
    reflexivity.
Defined.

(** ** Round trips through the list route *)

Lemma lines_set_next_id k n d : lines k (set_next_id k n d) = lines k d.
Proof. now destruct k. Qed.

#[local] Hint Rewrite lines_set_next_id : tables.











(** ** Documents that are not there *)

Lemma not_found_when_missing k id d :
  lookup k id d = None -> answers_not_found k id d.
Proof.
  intros H. split; [|split].
  - intros b. rewrite router_update. now apply put_documents_missing.
  - rewrite router_remove. now apply delete_documents_missing.
  - intros ->. rewrite router_validation_receipt. now apply validate_receipt_missing.
Qed.

(** X5. An update and a deletion of a document that is not in its table
    answer 404 and leave the database as it was, as does the validation of
    such a receipt; a document that a deletion has just removed is such a
    document, so a second deletion, an update or a validation of it answers
    404 and changes nothing. *)
Theorem missing_or_deleted_document_is_404 :
  forall (k : kind) (id : Z) (d : db),
    (lookup k id d = None -> answers_not_found k id d) /\
    (forall r, lookup k id d = Some r ->
               answers_not_found k id (fst (router (remove k id) d))).
Proof.
  intros k id d. split.
  - apply not_found_when_missing.
  - intros r H. apply not_found_when_missing.
    rewrite router_remove, (delete_documents_found k id d r H). simpl.
    unfold lookup. autorewrite with tables. apply find_filter_negb.
Qed.

Lemma missing_or_deleted_document_is_404_witness :
  answers_not_found Deliveries 9 store_delivery_5_2 /\
  answers_not_found Receipts 1 (fst (router (remove Receipts 1) store_receipt_validated)).
Proof.
  split.
  - apply (missing_or_deleted_document_is_404 Deliveries 9 store_delivery_5_2).
    reflexivity.
  - apply (missing_or_deleted_document_is_404 Receipts 1 store_receipt_validated)
      with (r := mkDocument 1 "RCP-001" "Acme" "2024-05-01" (Some "done") None None).
    reflexivity.
Defined.

(** ** Codes *)

Lemma decimal_value_zero_pad m : decimal_value (spec_zero_pad 3 m) = Some m.
Proof.
  unfold decimal_value, spec_zero_pad.
  destruct (decimal_value_zeros (3 - String.length (String_of m)) m) as (u & -> & Hm).
  simpl. now rewrite Hm.
Qed.

(** X6. The code tells the type and the count it was made from: two codes
    are equal only when they are codes of the same type made from the same
    count. *)
Theorem document_code_injective :
  forall (k k' : kind) (n n' : nat),
    document_code k n = document_code k' n' -> k = k' /\ n = n'.
Proof.
  intros k k' n n'. rewrite !document_code_spec. unfold spec_code.
  assert (P : spec_zero_pad 3 (n + 1) = spec_zero_pad 3 (n' + 1) -> n = n').
  { intros E. apply (f_equal decimal_value) in E.
    rewrite !decimal_value_zero_pad in E. injection E as E. lia. }
  destruct k, k'; simpl; intros E; try discriminate E;
    injection E as E; split; auto.
Qed.

Lemma document_code_injective_witness :
  Receipts = Receipts /\ 41%nat = 41%nat.
Proof.
  apply (document_code_injective Receipts Receipts 41 41). reflexivity.
Defined.

Lemma id_code_update_header id b rows :
  map id_code (map (update_header id b) rows) = map id_code rows.
Proof.
  rewrite map_map. apply map_ext. intros r. unfold update_header, id_code.
  now destruct (d_id r =? id)%Z.
Qed.

Lemma id_code_mark_done id rows :
  map id_code (map (mark_done id) rows) = map id_code rows.
Proof.
  rewrite map_map. apply map_ext. intros r. unfold mark_done, id_code.
  now destruct (d_id r =? id)%Z.
Qed.

Lemma documents_other_tables k d d' :
  other_tables k d' = other_tables k d -> documents (other k) d' = documents (other k) d.
Proof. unfold other_tables. now intros [= -> _ _]. Qed.

Lemma post_documents_documents k b d :
  exists row,
    documents k (fst (post_documents k b d)) = (documents k d ++ [row])%list /\
    id_code row = created_id_code k d.
Proof.
  rewrite post_documents_fst. cbv zeta. autorewrite with tables.
  eexists. split; reflexivity.
Qed.

Lemma put_documents_id_codes k id b d :
  map id_code (documents k (fst (put_documents k id b d))) = map id_code (documents k d).
Proof.
  destruct (lookup k id d) as [r|] eqn:H.
  - rewrite (put_documents_found k id b d r H). simpl. autorewrite with tables.
    apply id_code_update_header.
  - now rewrite (put_documents_missing k id b d H).
Qed.

Lemma validate_receipt_id_codes n d :
  map id_code (receipts (fst (validate_receipt n d))) = map id_code (receipts d).
Proof.
  destruct (validate_receipt_cases n d) as [-> | [-> | ->]]; try reflexivity.
  simpl. apply id_code_mark_done.
Qed.

Lemma id_codes_after_request r d k :
  not_a_deletion r ->
  map id_code (documents k (fst (router r d))) = map id_code (documents k d) \/
  map id_code (documents k (fst (router r d)))
  = (map id_code (documents k d) ++ [created_id_code k d])%list.
Proof.
  intros ND.
  destruct (router_handled r d) as [| | k0 name rest0 _ _ _ | k0 name rest0 _ _ _
                                    | k0 n name rest0 _ _ _ | k0 n name rest0 M _ _
                                    | n name rest0 _ _ _];
    try (left; reflexivity).
  - destruct (post_documents_documents k0 (req_body r) d) as (row & Hd & Hc).
    pose proof (documents_other_tables k0 _ _ (post_documents_other k0 (req_body r) d)) as Ho.
    destruct k, k0; cbn [documents other] in *;
      try (left; now rewrite Ho);
      right; rewrite Hd, map_app; simpl; now rewrite Hc.
  - pose proof (documents_other_tables k0 _ _ (put_documents_other k0 n (req_body r) d)) as Ho.
    left. destruct k, k0; cbn [documents other] in *;
      try (now rewrite Ho);
      [apply (put_documents_id_codes Receipts) | apply (put_documents_id_codes Deliveries)].
  - now contradiction ND.
  - left. destruct k.
    + apply validate_receipt_id_codes.
    + pose proof (documents_other_tables Receipts _ _ (validate_receipt_other n d)) as Ho.
      cbn [documents other] in *. now rewrite Ho.
Qed.

(** X7. A document keeps its id and its code: whatever a sequence of
    requests without a deletion does, each documents table afterwards
    lists the ids and codes it listed before, in the same order, followed
    by those of the documents created on the way, at most one for each
    request; updates and validations rewrite neither. *)
Theorem documents_keep_id_and_code :
  forall (reqs : list request) (d : db) (k : kind),
    Forall not_a_deletion reqs ->
    exists added,
      map id_code (documents k (run reqs d))
      = (map id_code (documents k d) ++ added)%list /\
      (List.length added <= List.length reqs)%nat.
Proof.
  intros reqs d k F. revert d.
  induction F as [|r reqs ND _ IH]; intros d.
  - exists []. split; [simpl; now rewrite app_nil_r | simpl; lia].
  - destruct (IH (fst (router r d))) as (added & E & L).
    change (run (r :: reqs) d) with (run reqs (fst (router r d))).
    rewrite E. cbn [List.length].
    destruct (id_codes_after_request r d k ND) as [-> | ->].
    + exists added. split; [reflexivity | lia].
    + exists (created_id_code k d :: added). split.
      * now rewrite <- app_assoc.
      * simpl. lia.
Qed.

Lemma documents_keep_id_and_code_witness :
  exists added,
    map id_code (receipts (run [update Receipts 1 (order "New name" (Some "ready") []);
                                validation Receipts 1;
                                create Receipts (order "Best" None [])]
                               store_receipt_4_3))
    = ([(1%Z, "RCP-001")] ++ added)%list /\
    (List.length added <= 3)%nat.
Proof.
  apply (documents_keep_id_and_code
           [update Receipts 1 (order "New name" (Some "ready") []);
            validation Receipts 1;
            create Receipts (order "Best" None [])]
           store_receipt_4_3 Receipts).
  repeat constructor; discriminate.
Defined.

Lemma sequential_codes_step r d k :
  not_a_deletion r -> sequential_codes k d -> sequential_codes k (fst (router r d)).
Proof.
  intros ND S. unfold sequential_codes in *.
  assert (L : forall rows : list document, List.length rows = List.length (map id_code rows))
    by (intros; now rewrite length_map).
  assert (C : forall rows : list document, map d_code rows = map snd (map id_code rows))
    by (intros; rewrite map_map; reflexivity).
  rewrite C, L. rewrite C in S.
  destruct (id_codes_after_request r d k ND) as [-> | ->].
  - now rewrite <- L.
  - rewrite length_app, <- L, map_app, S. simpl.
    rewrite seq_app, map_app. reflexivity.
Qed.

Lemma NoDup_codes k n : NoDup (map (document_code k) (seq 0 n)).
Proof.
  assert (G : forall l, NoDup l -> NoDup (map (document_code k) l)).
  { induction 1 as [|x l Hx _ IH]; simpl; constructor; [|exact IH].
    intros I. apply in_map_iff in I. destruct I as (y & E & Iy).
    assert (D : forall a b, document_code k a = document_code k b -> a = b).
    { intros a b Hab. rewrite !document_code_spec in Hab. unfold spec_code in Hab.
      assert (Hp : spec_zero_pad 3 (a + 1) = spec_zero_pad 3 (b + 1))
        by (destruct k; simpl in Hab; now injection Hab).
      apply (f_equal decimal_value) in Hp. rewrite !decimal_value_zero_pad in Hp.
      injection Hp as Hp. lia. }
    apply D in E. subst y. contradiction. }
  apply G, seq_NoDup.
Qed.

(** X8. As long as no document is deleted, codes are not reused: from a
    table whose codes are those of the counts 0, 1, 2, ... in order (an
    empty table is one), any sequence of requests without a deletion leaves
    a table of that kind, in which no two documents have the same code. *)
Theorem codes_distinct_without_deletion :
  forall (reqs : list request) (d : db) (k : kind),
    Forall not_a_deletion reqs ->
    sequential_codes k d ->
    sequential_codes k (run reqs d) /\
    NoDup (map d_code (documents k (run reqs d))).
Proof.
  intros reqs d k F S.
  assert (G : sequential_codes k (run reqs d)).
  { revert d S. induction F as [|r reqs ND _ IH]; intros d S; simpl; [exact S|].
    apply IH. now apply sequential_codes_step. }
  split; [exact G|]. unfold sequential_codes in G. rewrite G. apply NoDup_codes.
Qed.

Lemma codes_distinct_without_deletion_witness :
  NoDup (map d_code (receipts
    (run [create Receipts (order "Acme" None []);
          create Receipts (order "Acme" None [mkItem 1 1]);
          validation Receipts 2;
          update Receipts 1 (order "Best" (Some "ready") []);
          create Receipts (order "Acme" None [])] store_P10))).
Proof.
  apply (codes_distinct_without_deletion _ store_P10 Receipts).
  - repeat constructor; discriminate.
  - reflexivity.
Defined.

Lemma length_filter_other_id id (rows : list document) r :
  NoDup (map d_id rows) -> In r rows -> d_id r = id ->
  List.length (filter (fun r => negb (d_id r =? id)%Z) rows) = (List.length rows - 1)%nat.
Proof.
  intros N. revert r. induction rows as [|a rows IH]; intros r I E; [destruct I|].
  simpl in N. inversion N as [|x l Hx Hn]; subst x l. simpl.
  destruct (d_id a =? id)%Z eqn:Ea; simpl.
  - apply Z.eqb_eq in Ea. rewrite Nat.sub_0_r.
    assert (F : forall l : list document, ~ In id (map d_id l) ->
                filter (fun r => negb (d_id r =? id)%Z) l = l).
    { induction l as [|b l IHl]; simpl; intros Hb; [reflexivity|].
      destruct (d_id b =? id)%Z eqn:Eb; simpl.
      - apply Z.eqb_eq in Eb. exfalso. apply Hb. now left.
      - f_equal. apply IHl. intros Hl. apply Hb. now right. }
    rewrite F; [reflexivity|]. now rewrite <- Ea.
  - destruct I as [-> | I]; [apply Z.eqb_neq in Ea; contradiction|].
    rewrite (IH Hn r I E). destruct rows; [destruct I | simpl; lia].
Qed.

(** X9. A deletion makes the next code a code in use: in a table whose
    codes are those of the counts 0, 1, 2, ... and whose ids are distinct,
    after the deletion of a document other than the last row, the last row
    is still in the table and the code that a creation generates next, the
    prefix with the count of the rows plus one, is the code that the last
    row carries.  (Whether the row with that code can then be inserted is
    for the schema to say.) *)
Theorem code_reused_after_deletion :
  forall (k : kind) (id : Z) (d : db) (r last : document)
         (front : list document),
    sequential_codes k d ->
    NoDup (map d_id (documents k d)) ->
    lookup k id d = Some r ->
    documents k d = (front ++ [last])%list ->
    d_id last <> id ->
    let d1 := fst (router (remove k id) d) in
    In last (documents k d1) /\
    document_code k (List.length (documents k d1)) = d_code last.
Proof.
  intros k id d r last front S N H D Hl d1. subst d1.
  rewrite router_remove, (delete_documents_found k id d r H).
  simpl fst. autorewrite with tables. split.
  - apply filter_In. split.
    + rewrite D. apply in_or_app. right. now left.
    + apply Z.eqb_neq in Hl. now rewrite Hl.
  - unfold lookup in H. apply find_some in H. destruct H as [I E].
    apply Z.eqb_eq in E.
    rewrite (length_filter_other_id id _ r N I E).
    unfold sequential_codes in S. rewrite D in S.
    rewrite length_app, seq_app, !map_app in S. simpl in S.
    apply app_inj_tail in S. destruct S as [_ S].
    rewrite S, D, length_app. simpl. f_equal. lia.
Qed.

Lemma code_reused_after_deletion_witness :
  let d1 := fst (router (remove Receipts 1) store_after_deletion) in
  map d_code (receipts d1) = ["RCP-002"; "RCP-003"] /\
  document_code Receipts (List.length (receipts d1)) = "RCP-003".
Proof.
  destruct (code_reused_after_deletion Receipts 1 store_after_deletion
              (mkDocument 1 "RCP-001" "Acme" "2024-05-01" (Some "draft") None None)
              (mkDocument 3 "RCP-003" "Core" "2024-05-01" (Some "draft") None None)
              [mkDocument 1 "RCP-001" "Acme" "2024-05-01" (Some "draft") None None;
               mkDocument 2 "RCP-002" "Best" "2024-05-01" (Some "draft") None None])
    as [_ Hc].
  - reflexivity.
  - repeat constructor; simpl; intuition discriminate.
  - reflexivity.
  - reflexivity.
  - discriminate.
  - cbv zeta. split; [reflexivity | exact Hc].
Defined.

(** ** Validation and the products it names *)

Lemma credit_other q pid p : p_id p <> pid -> credit q pid p = p.
Proof. intros N. unfold credit. apply Z.eqb_neq in N. now rewrite N. Qed.

Lemma credit_fold_unnamed rows p :
  unnamed rows p ->
  fold_left (fun p i => credit (row_quantity i) (product_id i) p) rows p = p.
Proof.
  induction rows as [|i rows IH]; intros U; simpl; [reflexivity|].
  rewrite credit_other.
  - apply IH. intros j Ij. apply U. now right.
  - intros E. apply (U i); [now left | now symmetry].
Qed.

(** X10. The validation of a receipt leaves every product that no line of
    the receipt names exactly as it was.  So a receipt without lines, and a
    receipt whose lines name only products that are not in the products
    table, is validated with 200 and moves no stock: a line for an unknown
    product is passed over without an error. *)
Theorem validation_passes_over_unnamed_products :
  forall (d : db) (id : Z) (r : document),
    lookup Receipts id d = Some r ->
    is_done r = false ->
    let rows := lines_of Receipts id d in
    let d' := fst (router (validation Receipts id) d) in
    Forall2 (fun p p' => unnamed rows p -> p' = p) (products d) (products d') /\
    ((forall p, In p (products d) -> unnamed rows p) ->
     products d' = products d /\
     snd (router (validation Receipts id) d) = validated).
Proof.
  intros d id r H O rows d'. subst d'. rewrite router_validation_receipt.
  rewrite (validate_receipt_open id d r H O). simpl fst. simpl snd. simpl products.
  rewrite add_stock_fold_map. fold rows. split.
  - induction (products d) as [|p ps IH]; simpl; constructor; [|exact IH].
    apply credit_fold_unnamed.
  - intros U. split; [|reflexivity].
    rewrite <- (map_id (products d)) at 2. apply map_ext_in.
    intros p I. now apply credit_fold_unnamed, U.
Qed.

Lemma validation_passes_over_unnamed_products_witness :
  let d := run [create Receipts (order "Acme" None [mkItem 77 5])] store_P10 in
  router (validation Receipts 1) d
  = (run [validation Receipts 1] d, validated) /\
  products (run [validation Receipts 1] d) = [widget].
Proof.
  cbv zeta.
  destruct (validation_passes_over_unnamed_products
              (run [create Receipts (order "Acme" None [mkItem 77 5])] store_P10) 1
              (mkDocument 1 "RCP-001" "Acme" "2024-05-01" (Some "draft") None None)
              eq_refl eq_refl) as [_ Hu].
  destruct Hu as [Hp Hr].
  - intros p [<- | []] i [<- | []]. discriminate.
  - split; [reflexivity | exact Hp].
Defined.

(** ** Creating and validating *)

Lemma find_app_none {A} (f : A -> bool) (l l' : list A) :
  find f l = None -> find f (l ++ l') = find f l'.
Proof.
  induction l as [|a l IH]; simpl; [reflexivity|].
  destruct (f a); [discriminate | exact IH].
Qed.

(** X11. A receipt created under an id that no stored row and no stored
    line carries yet can be validated at once unless it was created with
    the status [done]: the validation answers 200 and adds to the stock
    the quantities of the items of the creation, product by product.  A
    receipt created with the status [done] is refused as already validated
    and its items never reach the stock. *)
Theorem create_then_validate :
  forall (b : body) (d : db),
    lookup Receipts (next_id Receipts d) d = None ->
    lines_of Receipts (next_id Receipts d) d = [] ->
    let id := next_id Receipts d in
    let d1 := fst (router (create Receipts b) d) in
    (or_default (b_status b) "draft" = "done" ->
     router (validation Receipts id) d1
     = (d1, Reply 400 (Error "Receipt already validated")) /\
     products d1 = products d) /\
    (or_default (b_status b) "draft" <> "done" ->
     snd (router (validation Receipts id) d1) = validated /\
     credited (map (row_of id) (items_or_empty (b_items b)))
              (products d) (products (fst (router (validation Receipts id) d1)))).
Proof.
  intros b d Fresh NoLines id d1. subst id d1.
  rewrite router_create, !router_validation_receipt.
  unfold lookup, lines_of in Fresh, NoLines. cbn [next_id documents lines] in *.
  set (id := receipts_seq d) in *.
  set (row := mkDocument id (document_code Receipts (List.length (receipts d)))
                (b_party b) (b_date b) (Some (or_default (b_status b) "draft"))
                (b_warehouse_id b) (b_location_id b)).
  assert (L : lookup Receipts id (fst (post_documents Receipts b d)) = Some row).
  { rewrite post_documents_fst. unfold lookup. simpl. fold id.
    rewrite (find_app_none _ _ _ Fresh). simpl. now rewrite Z.eqb_refl. }
  assert (R : lines_of Receipts id (fst (post_documents Receipts b d))
              = map (row_of id) (items_or_empty (b_items b))).
  { rewrite post_documents_fst. unfold lines_of. simpl. fold id.
    now rewrite filter_app, NoLines, filter_row_of_same. }
  split.
  - intros Done. split; [|apply post_documents_products].
    apply validate_receipt_done with (r := row); [exact L|].
    unfold is_done. simpl. now rewrite Done.
  - intros Open.
    assert (O : is_done row = false).
    { unfold is_done. simpl. destruct (String.eqb _ "done") eqn:E; [|reflexivity].
      apply String.eqb_eq in E. contradiction. }
    rewrite (validate_receipt_open id _ row L O). simpl fst. simpl snd.
    split; [reflexivity|]. simpl products. rewrite R.
    rewrite post_documents_products. apply add_stock_fold_credited.
Qed.

Lemma create_then_validate_witness :
  let open := order "Acme" None [mkItem 1 4] in
  let closed := order "Acme" (Some "done") [mkItem 1 4] in
  map p_stock (products (run [create Receipts open; validation Receipts 1] store_P10))
  = [10 + 4] /\
  router (validation Receipts 1) (run [create Receipts closed] store_P10)
  = (run [create Receipts closed] store_P10, Reply 400 (Error "Receipt already validated")).
Proof.
  cbv zeta. split; [reflexivity|].
  destruct (create_then_validate (order "Acme" (Some "done") [mkItem 1 4]) store_P10
              eq_refl eq_refl) as [Hdone _].
  destruct (Hdone eq_refl) as [Hv _]. exact Hv.
Defined.

(** ** Lines and their documents *)

Lemma lines_have_documents_other k d d' :
  other_tables k d' = other_tables k d ->
  lines_have_documents (other k) d -> lines_have_documents (other k) d'.
Proof.
  unfold other_tables, lines_have_documents. intros [= Ed El _]. now rewrite Ed, El.
Qed.

Lemma post_documents_lines_have_documents k b d :
  lines_have_documents k d -> lines_have_documents k (fst (post_documents k b d)).
Proof.
  unfold lines_have_documents. rewrite post_documents_fst. cbv zeta.
  autorewrite with tables. intros H i I.
  apply in_app_or in I. destruct I as [I | I].
  - destruct (H i I) as (r & Ir & E). exists r. split; [|exact E].
    apply in_or_app. now left.
  - apply in_map_iff in I. destruct I as (it & <- & _).
    eexists. split; [apply in_or_app; right; left; reflexivity | reflexivity].
Qed.

Lemma put_documents_lines_have_documents k id b d :
  lines_have_documents k d -> lines_have_documents k (fst (put_documents k id b d)).
Proof.
  intros H. destruct (lookup k id d) as [r|] eqn:L.
  - rewrite (put_documents_found k id b d r L). simpl fst.
    unfold lines_have_documents in *. autorewrite with tables. intros i I.
    assert (U : forall r0, In r0 (documents k d) ->
                exists r1, In r1 (map (update_header id b) (documents k d)) /\
                           d_id r1 = d_id r0).
    { intros r0 I0. exists (update_header id b r0). split; [now apply in_map|].
      unfold update_header. now destruct (d_id r0 =? id)%Z. }
    apply in_app_or in I. destruct I as [I | I].
    + apply filter_In in I. destruct I as [I _].
      destruct (H i I) as (r0 & I0 & E). destruct (U r0 I0) as (r1 & I1 & E1).
      exists r1. split; [exact I1 | congruence].
    + apply in_map_iff in I. destruct I as (it & <- & _). simpl.
      unfold lookup in L. apply find_some in L. destruct L as [I0 E].
      apply Z.eqb_eq in E. destruct (U r I0) as (r1 & I1 & E1).
      exists r1. split; [exact I1 | congruence].
  - now rewrite (put_documents_missing k id b d L).
Qed.

Lemma delete_documents_lines_have_documents k id d :
  lines_have_documents k d -> lines_have_documents k (fst (delete_documents k id d)).
Proof.
  intros H. destruct (lookup k id d) as [r|] eqn:L.
  - rewrite (delete_documents_found k id d r L). simpl fst.
    unfold lines_have_documents, on_delete_cascade in *. autorewrite with tables.
    intros i I. apply filter_In in I. destruct I as [I N].
    destruct (H i I) as (r0 & I0 & E). exists r0. split; [|exact E].
    apply filter_In. split; [exact I0 | now rewrite E].
  - now rewrite (delete_documents_missing k id d L).
Qed.

Lemma validate_receipt_lines_have_documents n d :
  lines_have_documents Receipts d ->
  lines_have_documents Receipts (fst (validate_receipt n d)).
Proof.
  intros H. destruct (validate_receipt_cases n d) as [-> | [-> | ->]]; try exact H.
  unfold lines_have_documents in *. simpl. intros i I.
  destruct (H i I) as (r0 & I0 & E). exists (mark_done n r0).
  split; [now apply in_map|]. unfold mark_done. now destruct (d_id r0 =? n)%Z.
Qed.

Lemma router_lines_have_documents r d k :
  lines_have_documents k d -> lines_have_documents k (fst (router r d)).
Proof.
  intros H.
  destruct (router_handled r d) as [| | k0 name rest0 _ _ _ | k0 name rest0 _ _ _
                                    | k0 n name rest0 _ _ _ | k0 n name rest0 _ _ _
                                    | n name rest0 _ _ _];
    try exact H.
  - destruct k, k0;
      try (now apply post_documents_lines_have_documents);
      [apply (lines_have_documents_other Deliveries d) | apply (lines_have_documents_other Receipts d)];
      try exact H; apply post_documents_other.
  - destruct k, k0;
      try (now apply put_documents_lines_have_documents);
      [apply (lines_have_documents_other Deliveries d) | apply (lines_have_documents_other Receipts d)];
      try exact H; apply put_documents_other.
  - destruct k, k0;
      try (now apply delete_documents_lines_have_documents);
      [apply (lines_have_documents_other Deliveries d) | apply (lines_have_documents_other Receipts d)];
      try exact H; apply delete_documents_other.
  - destruct k.
    + now apply validate_receipt_lines_have_documents.
    + apply (lines_have_documents_other Receipts d); [apply validate_receipt_other | exact H].
Qed.

(** X12. No request leaves a line without its document: when every line of
    a type belongs to a document of that type's table, this still holds
    after any sequence of requests (creations, updates, validations,
    deletions with the cascade of the items tables, lists, unrouted and
    failing requests). *)
Theorem lines_always_have_documents :
  forall (reqs : list request) (d : db) (k : kind),
    lines_have_documents k d ->
    lines_have_documents k (run reqs d).
Proof.
  induction reqs as [|r reqs IH]; intros d k H; simpl; [exact H|].
  apply IH. now apply router_lines_have_documents.
Qed.

Lemma lines_always_have_documents_witness :
  lines_have_documents Deliveries
    (run [create Deliveries (order "Bolt Ltd" None [mkItem 1 5; mkItem 2 2]);
          create Deliveries (order "Nut Ltd" None [mkItem 1 1]);
          update Deliveries 1 (order "Bolt Ltd" None [mkItem 2 1]);
          remove Deliveries 2] store_P10).
Proof.
  apply lines_always_have_documents. intros i [].
Defined.

(** * Properties of the delivery form *)

(** ** Removing a line *)

Lemma filter_index_remove {A} (index : nat) (l : list A) (s : nat) :
  filter_index (fun i => negb (i =? index)%nat) s l
  = if (index <? s)%nat then l
    else (firstn (index - s) l ++ skipn (S (index - s)) l)%list.
Proof.
  revert s. induction l as [|x l IH]; intros s; simpl.
  - destruct (index <? s)%nat; [reflexivity|]. now rewrite firstn_nil.
  - rewrite IH. destruct (index <? s)%nat eqn:E.
    + apply Nat.ltb_lt in E.
      assert (E1 : (s =? index)%nat = false) by (apply Nat.eqb_neq; lia).
      assert (E2 : (index <? S s)%nat = true) by (apply Nat.ltb_lt; lia).
      now rewrite E1, E2.
    + apply Nat.ltb_ge in E. destruct (s =? index)%nat eqn:E1; simpl.
      * apply Nat.eqb_eq in E1. subst s.
        assert (E2 : (index <? S index)%nat = true) by (apply Nat.ltb_lt; lia).
        rewrite E2, Nat.sub_diag. reflexivity.
      * apply Nat.eqb_neq in E1.
        assert (E2 : (index <? S s)%nat = false) by (apply Nat.ltb_ge; lia).
        rewrite E2. replace (index - s)%nat with (S (index - S s)) by lia.
        reflexivity.
Qed.

Lemma handleAddItem_appended products f line :
  snd (handleAddItem products f) = Appended line ->
  formData_items (fst (handleAddItem products f)) = (formData_items f ++ [line])%list.
Proof.
  unfold handleAddItem.
  destruct (form_productId (itemForm f)) as [pid|]; [|discriminate].
  destruct (form_quantity (itemForm f)) as [q|]; [|discriminate].
  cbv zeta. destruct (js_le (to_double q) js_zero); [discriminate|].
  destruct (find_product products pid) as [p|]; [|discriminate].
  destruct (js_lt _ _); [discriminate|].
  simpl. now intros [= <-].
Qed.

(** X13. [handleRemoveItem] takes out the line at the given position and
    nothing else: the lines before and after it stay in their order, the
    item inputs and the item error are untouched, and a position beyond the
    last line changes nothing.  Removing the last position after a line was
    appended by [handleAddItem] gives back the lines there were before. *)
Theorem handleRemoveItem_takes_out_one_position :
  forall (index : nat) (f : form),
    let items := formData_items f in
    handleRemoveItem index f
    = mkForm (firstn index items ++ skipn (S index) items) (itemForm f) (errors_item f) /\
    (index < List.length items ->
     S (List.length (formData_items (handleRemoveItem index f))) = List.length items)%nat /\
    ((List.length items <= index)%nat -> handleRemoveItem index f = f) /\
    (forall products line,
        snd (handleAddItem products f) = Appended line ->
        formData_items (handleRemoveItem (List.length items) (fst (handleAddItem products f)))
        = items).
Proof.
  intros index f items.
  assert (E : handleRemoveItem index f
              = mkForm (firstn index items ++ skipn (S index) items)
                       (itemForm f) (errors_item f)).
  { unfold handleRemoveItem. rewrite filter_index_remove. simpl.
    now rewrite Nat.sub_0_r. }
  split; [exact E|]. split; [|split].
  - intros L. rewrite E. cbn [formData_items].
    rewrite length_app, length_firstn, length_skipn. lia.
  - intros L. rewrite E, firstn_all2, skipn_all2, app_nil_r by lia.
    subst items. now destruct f.
  - intros products line A. unfold handleRemoveItem.
    rewrite filter_index_remove. cbn [formData_items Nat.ltb Nat.leb].
    rewrite Nat.sub_0_r.
    rewrite (handleAddItem_appended products f line A). fold items.
    rewrite firstn_app, firstn_all, Nat.sub_diag.
    rewrite skipn_app, skipn_all2 by lia.
    replace (S (List.length items) - List.length items)%nat with 1%nat by lia.
    cbn [firstn skipn app]. now rewrite !app_nil_r.
Qed.

Lemma handleRemoveItem_takes_out_one_position_witness :
  formData_items (handleRemoveItem 1
    (mkForm [mkItem 1 4; mkItem 2 1; mkItem 1 3] (mkItemForm None None) NoItemError))
  = [mkItem 1 4; mkItem 1 3] /\
  handleRemoveItem 5 (form_asking (Some 1%Z) (Some 6)) = form_asking (Some 1%Z) (Some 6) /\
  formData_items (handleRemoveItem 1
    (fst (handleAddItem [widget; gadget] (form_asking (Some 1%Z) (Some 6)))))
  = [mkItem 1 4].
Proof.
  split; [|split].
  - destruct (handleRemoveItem_takes_out_one_position 1
                (mkForm [mkItem 1 4; mkItem 2 1; mkItem 1 3] (mkItemForm None None) NoItemError))
      as [E _].
    rewrite E. reflexivity.
  - destruct (handleRemoveItem_takes_out_one_position 5 (form_asking (Some 1%Z) (Some 6)))
      as (_ & _ & Hout & _).
    apply Hout. simpl. lia.
  - destruct (handleRemoveItem_takes_out_one_position 1 (form_asking (Some 1%Z) (Some 6)))
      as (_ & _ & _ & Hback).
    apply (Hback [widget; gadget] (mkItem 1 6)). reflexivity.
Defined.

(** ** Lines that passed the checks *)

Lemma In_filter_index {A} keep (l : list A) x :
  forall i, In x (filter_index keep i l) -> In x l.
Proof.
  induction l as [|a l IH]; intros i; simpl; [tauto|].
  destruct (keep i); simpl; intros H.
  - destruct H as [-> | H]; [now left | right; now apply (IH (S i))].
  - right. now apply (IH (S i)).
Qed.

(** What [handleAddItem] does to the lines: nothing, or it appends the
    line asked for, which passed its three checks. *)
Lemma handleAddItem_items products f :
  formData_items (fst (handleAddItem products f)) = formData_items f \/
  exists pid q p,
    find_product products pid = Some p /\
    js_le (to_double q) js_zero = false /\
    js_lt (to_double (p_stock p))
          (js_add (existingQuantity (formData_items f) pid) (to_double q)) = false /\
    formData_items (fst (handleAddItem products f))
    = (formData_items f ++ [mkItem pid q])%list.
Proof.
  unfold handleAddItem.
  destruct (form_productId (itemForm f)) as [pid|]; [|now left].
  destruct (form_quantity (itemForm f)) as [q|]; [|now left].
  cbv zeta. destruct (js_le (to_double q) js_zero) eqn:Eq; [now left|].
  destruct (find_product products pid) as [p|] eqn:Ep; [|now left].
  destruct (js_lt (to_double (p_stock p))
                  (js_add (existingQuantity (formData_items f) pid) (to_double q))) eqn:Es;
    simpl; [now left|].
  right. exists pid, q, p.
  split; [exact Ep|]. split; [exact Eq|]. split; [exact Es | reflexivity].
Qed.

Lemma existingQuantity_appended items pid q pid' :
  existingQuantity (items ++ [mkItem pid q]) pid'
  = if (pid =? pid')%Z then js_add (existingQuantity items pid') (to_double q)
    else existingQuantity items pid'.
Proof.
  unfold existingQuantity. rewrite filter_app. simpl.
  destruct (pid =? pid')%Z.
  - now rewrite fold_left_app.
  - now rewrite app_nil_r.
Qed.

Lemma act_lines_checked products a f :
  lines_checked products (formData_items f) ->
  lines_checked products (formData_items (act products a f)).
Proof.
  intros W. unfold lines_checked in *.
  destruct a as [v | v | | index]; simpl; try exact W.
  - destruct (handleAddItem_items products f) as [-> | (pid & q & p & F & Pq & _ & ->)];
      [exact W|].
    apply Forall_app. split; [exact W|].
    constructor; [|constructor]. split; [exact Pq|]. now exists p.
  - rewrite Forall_forall in *. intros it I. apply W.
    now apply In_filter_index in I.
Qed.

Lemma act_sums_within_stock products a f :
  adds_only a ->
  sums_within_stock products (formData_items f) ->
  sums_within_stock products (formData_items (act products a f)).
Proof.
  intros A W. destruct a as [v | v | | index]; simpl; try exact W; [|destruct A].
  destruct (handleAddItem_items products f) as [-> | (pid & q & p & F & _ & Fits & ->)];
    [exact W|].
  intros pid' p' F' I. rewrite existingQuantity_appended.
  destruct (pid =? pid')%Z eqn:E.
  - apply Z.eqb_eq in E. subst pid'. rewrite F in F'. injection F' as <-. exact Fits.
  - apply W; [exact F'|]. rewrite map_app in I. apply in_app_or in I.
    destruct I as [I | [I | []]]; [exact I|].
    simpl in I. apply Z.eqb_neq in E. contradiction.
Qed.

(** X14. However the user selects products, types quantities, adds and
    removes lines, every line of the form has passed the checks of
    [handleAddItem]: its quantity is a positive number and it names a
    product of the page.  As long as no line is removed, the sum of the
    lines of each product, as [handleAddItem] computes it (a sum of doubles
    from the left), is not above that product's stock.  A form without
    lines satisfies both. *)
Theorem composed_lines_stay_within_stock :
  forall (products : list product) (actions : list action) (f : form),
    lines_checked products (formData_items f) ->
    lines_checked products (formData_items (compose products actions f)) /\
    (Forall adds_only actions ->
     sums_within_stock products (formData_items f) ->
     sums_within_stock products (formData_items (compose products actions f))).
Proof.
  intros products actions. induction actions as [|a actions IH]; intros f W; simpl.
  - split; [exact W | intros _ S; exact S].
  - destruct (IH (act products a f) (act_lines_checked products a f W)) as [G1 G2].
    split; [exact G1|].
    intros A S. inversion A as [|x l Ha Hl]; subst.
    apply G2; [exact Hl | now apply act_sums_within_stock].
Qed.

Lemma composed_lines_stay_within_stock_witness :
  let actions :=
    [SelectProduct (Some 1%Z); TypeQuantity (Some 6); ClickAdd;
     SelectProduct (Some 1%Z); TypeQuantity (Some 5); ClickAdd;
     SelectProduct (Some 2%Z); TypeQuantity (Some (1 # 10)); ClickAdd;
     SelectProduct (Some 1%Z); TypeQuantity (Some 4); ClickAdd] in
  formData_items (compose [widget; gadget] actions blank_lines)
  = [mkItem 1 6; mkItem 2 (1 # 10); mkItem 1 4] /\
  lines_checked [widget; gadget]
    (formData_items (compose [widget; gadget] (actions ++ [ClickRemove 1]) blank_lines)) /\
  sums_within_stock [widget; gadget]
    (formData_items (compose [widget; gadget] actions blank_lines)).
Proof.
  cbv zeta. split; [reflexivity|]. split.
  - apply composed_lines_stay_within_stock. constructor.
  - apply composed_lines_stay_within_stock.
    + constructor.
    + repeat constructor.
    + intros pid p _ [].
Defined.

(** ** Submitting the form *)

Lemma is_empty_false s : is_empty s = false -> s <> "".
Proof. destruct s; [discriminate | intros _; discriminate]. Qed.

Lemma handleSubmit_complete trim today m :
  complete trim m = true ->
  handleSubmit trim today m
  = (handleCloseModal today,
     Some (match selectedDelivery m with
           | Some dl =>
               updateDelivery (del_id dl)
                 (mkDeliveryData (trim (m_customer m)) (m_date m)
                    (formData_items (m_lines m)) (status_to_send (selectedDelivery m)))
           | None =>
               addDelivery
                 (mkDeliveryData (trim (m_customer m)) (m_date m)
                    (formData_items (m_lines m)) (status_to_send (selectedDelivery m)))
           end)).
Proof.
  unfold complete, handleSubmit. cbv zeta. intros C.
  apply andb_true_iff in C. destruct C as [C C3].
  apply andb_true_iff in C. destruct C as [C1 C2].
  apply negb_true_iff in C1, C2, C3. now rewrite C1, C2, C3.
Qed.

Lemma handleSubmit_incomplete trim today m :
  complete trim m = false ->
  snd (handleSubmit trim today m) = None /\
  isModalOpen (fst (handleSubmit trim today m)) = isModalOpen m /\
  selectedDelivery (fst (handleSubmit trim today m)) = selectedDelivery m /\
  m_customer (fst (handleSubmit trim today m)) = m_customer m /\
  m_date (fst (handleSubmit trim today m)) = m_date m /\
  formData_items (m_lines (fst (handleSubmit trim today m))) = formData_items (m_lines m) /\
  (errors_customer (fst (handleSubmit trim today m)) <> "" \/
   errors_date (fst (handleSubmit trim today m)) <> "" \/
   errors_items (fst (handleSubmit trim today m)) <> "").
Proof.
  unfold complete, handleSubmit. cbv zeta. intros C.
  destruct (is_empty (trim (m_customer m))); simpl in *;
    [repeat split; left; discriminate|].
  destruct (is_empty (m_date m)); simpl in *;
    [repeat split; right; left; discriminate|].
  destruct (List.length (formData_items (m_lines m)) =? 0)%nat; simpl in *;
    [repeat split; right; right; discriminate | discriminate C].
Qed.

(** X15. [handleSubmit] calls [addDelivery] or [updateDelivery] only for a
    complete form: the customer it sends is the trimmed customer and is not
    empty, the date is not empty and there is at least one line; it calls
    [updateDelivery] with the id of the selected delivery when one is
    selected and [addDelivery] otherwise, sends the selected delivery's
    status ([draft] when there is none or it is empty), and closes the
    modal.  For an incomplete form it calls nothing, keeps the customer,
    the date, the lines and the selection, and sets an error. *)
Theorem handleSubmit_sends_complete_deliveries :
  forall (trim : string -> string) (today : string) (m : modal),
    (forall c, snd (handleSubmit trim today m) = Some c ->
       data_of c = mkDeliveryData (trim (m_customer m)) (m_date m)
                     (formData_items (m_lines m)) (status_to_send (selectedDelivery m)) /\
       data_customer (data_of c) <> "" /\
       data_date (data_of c) <> "" /\
       data_items (data_of c) <> [] /\
       data_status (data_of c) <> "" /\
       c = match selectedDelivery m with
           | Some dl => updateDelivery (del_id dl) (data_of c)
           | None => addDelivery (data_of c)
           end /\
       fst (handleSubmit trim today m) = handleCloseModal today) /\
    (snd (handleSubmit trim today m) = None ->
       complete trim m = false /\
       selectedDelivery (fst (handleSubmit trim today m)) = selectedDelivery m /\
       m_customer (fst (handleSubmit trim today m)) = m_customer m /\
       m_date (fst (handleSubmit trim today m)) = m_date m /\
       formData_items (m_lines (fst (handleSubmit trim today m)))
       = formData_items (m_lines m) /\
       (errors_customer (fst (handleSubmit trim today m)) <> "" \/
        errors_date (fst (handleSubmit trim today m)) <> "" \/
        errors_items (fst (handleSubmit trim today m)) <> "")).
Proof.
  intros trim today m. destruct (complete trim m) eqn:C.
  - rewrite (handleSubmit_complete trim today m C). split; [|discriminate].
    intros c [= <-].
    unfold complete in C.
    apply andb_true_iff in C. destruct C as [C C3].
    apply andb_true_iff in C. destruct C as [C1 C2].
    apply negb_true_iff in C1, C2, C3.
    assert (S : status_to_send (selectedDelivery m) <> "").
    { unfold status_to_send. destruct (selectedDelivery m) as [dl|]; [|discriminate].
      destruct (is_empty (del_status dl)) eqn:E; [discriminate|].
      now apply is_empty_false. }
    destruct (selectedDelivery m) as [dl|]; simpl;
      (split; [reflexivity|]);
      (split; [now apply is_empty_false|]);
      (split; [now apply is_empty_false|]);
      (split; [destruct (formData_items (m_lines m)); [discriminate C3 | discriminate]|]);
      (split; [exact S|]); split; reflexivity.
  - destruct (handleSubmit_incomplete trim today m C) as (N & _ & Hs & Hc & Hd & Hi & He).
    split; [intros c Hc'; rewrite N in Hc'; discriminate|].
    intros _. repeat split; assumption.
Qed.

Lemma handleSubmit_sends_complete_deliveries_witness :
  let edited :=
    mkModal true (Some listed_delivery) "  Nut Ltd " "2024-05-02"
            (mkForm [mkItem 1 4] (mkItemForm None None) NoItemError) "" "" "" in
  let blank :=
    mkModal true None "   " "2024-05-02"
            (mkForm [mkItem 1 4] (mkItemForm None None) NoItemError) "" "" "" in
  snd (handleSubmit trim_blanks "2024-05-09" edited)
  = Some (updateDelivery 5 (mkDeliveryData "Nut Ltd" "2024-05-02" [mkItem 1 4] "ready")) /\
  fst (handleSubmit trim_blanks "2024-05-09" edited) = handleCloseModal "2024-05-09" /\
  snd (handleSubmit trim_blanks "2024-05-09" blank) = None /\
  m_customer (fst (handleSubmit trim_blanks "2024-05-09" blank)) = "   ".
Proof.
  cbv zeta. split; [reflexivity|]. split; [|split; [reflexivity|]].
  - destruct (handleSubmit_sends_complete_deliveries trim_blanks "2024-05-09"
                (mkModal true (Some listed_delivery) "  Nut Ltd " "2024-05-02"
                   (mkForm [mkItem 1 4] (mkItemForm None None) NoItemError) "" "" ""))
      as [Hsent _].
    destruct (Hsent (updateDelivery 5
                       (mkDeliveryData "Nut Ltd" "2024-05-02" [mkItem 1 4] "ready"))
                    eq_refl) as (_ & _ & _ & _ & _ & _ & Hclosed).
    exact Hclosed.
  - destruct (handleSubmit_sends_complete_deliveries trim_blanks "2024-05-09"
                (mkModal true None "   " "2024-05-02"
                   (mkForm [mkItem 1 4] (mkItemForm None None) NoItemError) "" "" ""))
      as [_ Hnone].
    destruct (Hnone eq_refl) as (_ & _ & Hc & _). exact Hc.
Defined.

(** ** From opening the modal to the call *)

Lemma modal_run_selected products actions m :
  selectedDelivery (modal_run products actions m) = selectedDelivery m.
Proof.
  revert m. induction actions as [|a actions IH]; intros m; simpl; [reflexivity|].
  rewrite IH. now destruct a.
Qed.

Lemma modal_run_lines_checked products actions m :
  lines_checked products (formData_items (m_lines m)) ->
  lines_checked products (formData_items (m_lines (modal_run products actions m))).
Proof.
  revert m. induction actions as [|a actions IH]; intros m W; simpl; [exact W|].
  apply IH. destruct a as [v | v | a]; simpl; try exact W.
  now apply act_lines_checked.
Qed.

(** X16. Whatever the user types and does to the lines between opening the
    modal and submitting, a call that the submission makes is
    [addDelivery] with the status [draft] and at least one line, each line
    having passed the checks of [handleAddItem] (a positive number for a
    product of the page), when the modal was opened for a new delivery, and
    is [updateDelivery] with the id and the status of the delivery (or
    [draft] for an empty status) when it was opened on a delivery: the form
    cannot change a delivery's status. *)
Theorem submitted_delivery_after_editing :
  forall (trim : string -> string) (today : string) (products : list product)
         (selected : option delivery) (actions : list modal_action) (c : call),
    snd (handleSubmit trim today
           (modal_run products actions (handleOpenModal today selected))) = Some c ->
    match selected with
    | None =>
        exists data, c = addDelivery data /\ data_status data = "draft" /\
                     data_items data <> [] /\
                     lines_checked products (data_items data)
    | Some dl =>
        exists data, c = updateDelivery (del_id dl) data /\
                     data_status data = status_to_send (Some dl)
    end.
Proof.
  intros trim today products selected actions c H.
  set (m := modal_run products actions (handleOpenModal today selected)) in *.
  assert (S : selectedDelivery m = selected).
  { unfold m. rewrite modal_run_selected. now destruct selected. }
  destruct (complete trim m) eqn:C.
  - rewrite (handleSubmit_complete trim today m C) in H. simpl in H.
    rewrite S in H. injection H as <-.
    destruct selected as [dl|].
    + eexists. split; reflexivity.
    + eexists. split; [reflexivity|]. split; [reflexivity|]. simpl. split.
      * unfold complete in C. apply andb_true_iff in C. destruct C as [_ C3].
        apply negb_true_iff in C3.
        destruct (formData_items (m_lines m)); [discriminate C3 | discriminate].
      * unfold m. apply modal_run_lines_checked. constructor.
  - destruct (handleSubmit_incomplete trim today m C) as (N & _).
    rewrite N in H. discriminate H.
Qed.

Lemma submitted_delivery_after_editing_witness :
  exists data,
    snd (handleSubmit trim_blanks "2024-05-09"
           (modal_run [widget; gadget]
              [TypeCustomer "  Nut Ltd ";
               OnLines (SelectProduct (Some 1%Z)); OnLines (TypeQuantity (Some 12));
               OnLines ClickAdd;
               OnLines (TypeQuantity (Some 7)); OnLines ClickAdd]
              (handleOpenModal "2024-05-09" None)))
    = Some (addDelivery data) /\
    data_items data = [mkItem 1 7] /\
    lines_checked [widget; gadget] (data_items data).
Proof.
  destruct (submitted_delivery_after_editing trim_blanks "2024-05-09" [widget; gadget] None
              [TypeCustomer "  Nut Ltd ";
               OnLines (SelectProduct (Some 1%Z)); OnLines (TypeQuantity (Some 12));
               OnLines ClickAdd;
               OnLines (TypeQuantity (Some 7)); OnLines ClickAdd]
              (addDelivery (mkDeliveryData "Nut Ltd" "2024-05-09" [mkItem 1 7] "draft"))
              eq_refl) as (data & Hc & _ & _ & Hw).
  injection Hc as <-. eexists. split; [reflexivity|]. split; [reflexivity | exact Hw].
Defined.

(** * Stock under every request *)

Lemma grown_refl ps : grown ps ps.
Proof. induction ps; constructor; [split; [reflexivity | lra] | assumption]. Qed.

Lemma grown_trans ps1 ps2 ps3 : grown ps1 ps2 -> grown ps2 ps3 -> grown ps1 ps3.
Proof.
  intros G. revert ps3. induction G as [|p p' ps ps' [Hi Hs] _ IH]; intros ps3 G'.
  - inversion G'. constructor.
  - inversion G' as [|q q' qs qs' [Hi' Hs'] G'']; subst.
    constructor; [split; [congruence | lra] | now apply IH].
Qed.

Lemma line_quantity_nonneg pid rows : nonneg_lines rows -> 0 <= line_quantity pid rows.
Proof.
  induction 1 as [|i rows Hi _ IH]; simpl; [lra|].
  destruct (product_id i =? pid)%Z; lra.
Qed.

Lemma credited_grown rows ps ps' : credited rows ps ps' -> nonneg_lines rows -> grown ps ps'.
Proof.
  intros C L. induction C as [|p p' ps ps' (Hi & _ & _ & Hs) _ IH]; constructor;
    [|exact IH].
  split; [exact Hi|]. rewrite Hs.
  pose proof (line_quantity_nonneg (p_id p) rows L). lra.
Qed.

Lemma nonneg_lines_row_of id items :
  Forall (fun it => 0 <= quantity it) items -> nonneg_lines (map (row_of id) items).
Proof.
  unfold nonneg_lines. induction 1; simpl; constructor; assumption.
Qed.

Lemma nonneg_lines_app rows rows' :
  nonneg_lines rows -> nonneg_lines rows' -> nonneg_lines (rows ++ rows').
Proof. intros H H'. apply Forall_app. now split. Qed.

Lemma router_receipt_lines_nonneg r d :
  nonneg_body r -> nonneg_lines (receipt_items d) ->
  nonneg_lines (receipt_items (fst (router r d))).
Proof.
  intros B L.
  destruct (router_handled r d) as [| | k0 name rest0 _ _ _ | k0 name rest0 _ _ _
                                    | k0 n name rest0 _ _ _ | k0 n name rest0 _ _ _
                                    | n name rest0 _ _ _];
    try exact L.
  - rewrite post_documents_fst. destruct k0; simpl; [|exact L].
    apply nonneg_lines_app; [exact L | now apply nonneg_lines_row_of].
  - destruct (lookup k0 n d) as [r0|] eqn:H.
    + rewrite (put_documents_found k0 n (req_body r) d r0 H).
      destruct k0; simpl; [|exact L].
      apply nonneg_lines_app;
        [now apply nonneg_lines_filter | now apply nonneg_lines_row_of].
    + now rewrite (put_documents_missing k0 n (req_body r) d H).
  - destruct (lookup k0 n d) as [r0|] eqn:H.
    + rewrite (delete_documents_found k0 n d r0 H).
      destruct k0; simpl; [|exact L].
      unfold on_delete_cascade. now apply nonneg_lines_filter.
    + now rewrite (delete_documents_missing k0 n d H).
  - destruct (validate_receipt_cases n d) as [-> | [-> | ->]]; exact L.
Qed.

Lemma router_grown r d :
  nonneg_lines (receipt_items d) -> grown (products d) (products (fst (router r d))).
Proof.
  intros L.
  destruct (router_handled r d) as [| | k0 name rest0 _ _ _ | k0 name rest0 _ _ _
                                    | k0 n name rest0 _ _ _ | k0 n name rest0 _ _ _
                                    | n name rest0 _ _ _];
    try apply grown_refl.
  - rewrite post_documents_products. apply grown_refl.
  - rewrite put_documents_products. apply grown_refl.
  - rewrite delete_documents_products. apply grown_refl.
  - destruct (validate_receipt_cases n d) as [-> | [-> | ->]]; try apply grown_refl.
    simpl. apply credited_grown with (rows := lines_of Receipts n d).
    + apply add_stock_fold_credited.
    + now apply nonneg_lines_filter.
Qed.

(** X17. No request for a document lowers a stock: when the stored receipt
    lines and the items of the bodies of the requests have non-negative
    quantities, then after any sequence of requests (creations, updates,
    validations, deletions, lists, for receipts and deliveries) the
    products table has the same products in the same order, each with the
    stock it had or more; in particular stocks that were non-negative stay
    non-negative. *)
Theorem no_request_lowers_stock :
  forall (reqs : list request) (d : db),
    Forall nonneg_body reqs ->
    nonneg_lines (receipt_items d) ->
    grown (products d) (products (run reqs d)) /\
    (nonneg_stock d -> nonneg_stock (run reqs d)).
Proof.
  intros reqs d B L.
  assert (G : grown (products d) (products (run reqs d))).
  { revert d L. induction B as [|r reqs Br _ IH]; intros d L; simpl.
    - apply grown_refl.
    - apply grown_trans with (products (fst (router r d))).
      + now apply router_grown.
      + apply IH. now apply router_receipt_lines_nonneg. }
  split; [exact G|].
  unfold nonneg_stock. intros N.
  induction G as [|p p' ps ps' [_ Hs] _ IH]; [constructor|].
  inversion N; subst. constructor; [lra | now apply IH].
Qed.

Lemma no_request_lowers_stock_witness :
  grown [widget; gadget]
    (products (run [create Deliveries (order "Bolt Ltd" None [mkItem 1 9]);
                    create Receipts (order "Acme" None [mkItem 2 3]);
                    validation Receipts 1;
                    validation Deliveries 1;
                    update Deliveries 1 (order "Bolt Ltd" (Some "done") [mkItem 1 10]);
                    remove Receipts 1]
                   (mkDb [widget; gadget] [] [] [] [] 1 1))).
Proof.
  apply (no_request_lowers_stock _ (mkDb [widget; gadget] [] [] [] [] 1 1)).
  - repeat constructor; simpl; lra.
  - constructor.
Defined.
